(** * media_yt: the download-relay service of [app.py]

    A shallow embedding of the three request handlers of [app.py]
    ([update_yt_dlp], [get_formats], [download_video]) together with the
    Python operations they rely on, and the properties of the handlers that
    the specification states.

    The handlers talk to the outside world (child processes, the temporary
    directory, the upload endpoint, the logger).  They are written here in a
    monad [M] that threads the part of the file system the handlers touch,
    carries Python's exceptions and records the effects of a handler in the
    order they happen; what the outside world answers is read from an
    [Env]. *)

From Stdlib Require Import ZArith String Ascii List DecimalString DecimalPos
  DecimalFacts Lia.
From stdpp Require Import base gmap strings list.

Set Warnings "-register-all".
Local Open Scope string_scope.
Local Open Scope Z_scope.
Local Open Scope list_scope.

(** ** Python values *)

(** A decoded JSON document, as [json.loads] and [request.get_json] hand it
    to the handlers: [JNull] is Python's [None], an object is a [dict] whose
    items are kept in insertion order (lookup takes the first binding of a
    key).  Numbers are the integers; fractional JSON numbers are outside this
    model. *)
Inductive JSON : Type :=
| JNull
| JBool (b : bool)
| JNum (n : Z)
| JStr (s : string)
| JArr (items : list JSON)
| JObj (members : list (string * JSON)).

(** The exceptions the handlers can meet. *)
Inductive Cmd : Type :=
| Shell (line : string)          (* subprocess.run(line, shell=True) *)
| Argv (args : list string).     (* subprocess.run([...]) *)

Inductive Exn : Type :=
| TypeError
| AttributeError
| KeyError (key : string)
| JSONDecodeError
| CalledProcessError (returncode : Z) (cmd : Cmd)
| TimeoutExpired (cmd : Cmd) (timeout : Z)
| OSError (what : string)
| HTTPError (status : Z)
| RequestException
| HTTPException (code : Z).

Inductive Res (A : Type) : Type :=
| Ok (a : A)
| Raise (e : Exn).
Arguments Ok {A} a.
Arguments Raise {A} e.

(** *** Strings *)

(** [needle in s] on two [str]. *)
Fixpoint contains (needle s : string) : bool :=
  String.prefix needle s ||
  match s with
  | EmptyString => false
  | String _ s' => contains needle s'
  end.

(** The ASCII characters for which [str.isspace] holds.  ([str.strip] also
    removes the non-ASCII Unicode spaces, which a byte string does not
    single out; they are left in place here.) *)
Definition isspace (c : ascii) : bool :=
  let n := nat_of_ascii c in
  ((9 <=? n) && (n <=? 13) || (28 <=? n) && (n <=? 32))%nat.

Fixpoint lstrip (s : string) : string :=
  match s with
  | EmptyString => EmptyString
  | String c s' => if isspace c then lstrip s' else s
  end.

Fixpoint rstrip (s : string) : string :=
  match s with
  | EmptyString => EmptyString
  | String c s' =>
      match rstrip s' with
      | EmptyString => if isspace c then EmptyString else String c EmptyString
      | t => String c t
      end
  end.

Definition strip (s : string) : string := rstrip (lstrip s).

Fixpoint endswith_char (c : ascii) (s : string) : bool :=
  match s with
  | EmptyString => false
  | String a EmptyString => Ascii.eqb a c
  | String _ s' => endswith_char c s'
  end.

(** [' '.join(parts)] *)
Fixpoint join_space (parts : list string) : string :=
  match parts with
  | [] => EmptyString
  | [p] => p
  | p :: rest => p +:+ " " +:+ join_space rest
  end.

(** [os.path.join(a, b)] of [posixpath]. *)
Definition os_path_join (a b : string) : string :=
  if String.prefix "/" b then b
  else if String.eqb a EmptyString || endswith_char "/" a then a +:+ b
  else a +:+ "/" +:+ b.

(** [str(n)] of an [int]. *)
Definition str_int (n : Z) : string := NilZero.string_of_int (Z.to_int n).

Definition ascii_lower (c : ascii) : ascii :=
  let n := nat_of_ascii c in
  if ((65 <=? n) && (n <=? 90))%nat then ascii_of_nat (n + 32) else c.

Fixpoint lower (s : string) : string :=
  match s with
  | EmptyString => EmptyString
  | String c s' => String (ascii_lower c) (lower s')
  end.

(** *** Truthiness, membership, subscripts *)

(** [bool(v)]: what [not v] and [if v:] test. *)
Definition truthy (v : JSON) : bool :=
  match v with
  | JNull => false
  | JBool b => b
  | JNum n => negb (n =? 0)%Z
  | JStr s => negb (String.eqb s EmptyString)
  | JArr items => match items with [] => false | _ => true end
  | JObj members => match members with [] => false | _ => true end
  end.

Definition truthy_opt_str (o : option string) : bool :=
  match o with
  | None => false
  | Some s => negb (String.eqb s EmptyString)
  end.

Fixpoint assoc {A : Type} (k : string) (kvs : list (string * A)) : option A :=
  match kvs with
  | [] => None
  | (k', v) :: rest => if String.eqb k k' then Some v else assoc k rest
  end.

Definition is_str (k : string) (v : JSON) : bool :=
  match v with
  | JStr s => String.eqb s k
  | _ => false
  end.

(** [k in v] for a [str] key [k]: a key of a dict, an element of a list, a
    substring of a str; the other values are not iterable. *)
Definition py_in (k : string) (v : JSON) : Res bool :=
  match v with
  | JObj members => Ok (match assoc k members with Some _ => true | None => false end)
  | JArr items => Ok (existsb (is_str k) items)
  | JStr s => Ok (contains k s)
  | _ => Raise TypeError
  end.

(** [v[k]] for a [str] key [k]. *)
Definition py_getitem (v : JSON) (k : string) : Res JSON :=
  match v with
  | JObj members =>
      match assoc k members with
      | Some x => Ok x
      | None => Raise (KeyError k)
      end
  | _ => Raise TypeError
  end.

(** [v.get(k, default)]; only a dict has [get]. *)
Definition py_get (v : JSON) (k : string) (default : JSON) : Res JSON :=
  match v with
  | JObj members =>
      Ok (match assoc k members with Some x => x | None => default end)
  | _ => Raise AttributeError
  end.

(** [v.strip()]; only a str has [strip]. *)
Definition py_strip (v : JSON) : Res string :=
  match v with
  | JStr s => Ok (strip s)
  | _ => Raise AttributeError
  end.

(** The items a [for] loop walks: the elements of a list, the keys of a
    dict, the characters of a str. *)
Fixpoint chars (s : string) : list JSON :=
  match s with
  | EmptyString => []
  | String c s' => JStr (String c EmptyString) :: chars s'
  end.

Definition py_iter (v : JSON) : Res (list JSON) :=
  match v with
  | JArr items => Ok items
  | JObj members => Ok (map (fun kv => JStr (fst kv)) members)
  | JStr s => Ok (chars s)
  | _ => Raise TypeError
  end.

(** [f"{v}"]: the text of a value inside an f-string.  The text of a list or
    a dict is Python's [repr], with quoting rules of its own; it is taken
    from the argument [repr]. *)
Definition py_str (repr : JSON -> string) (v : JSON) : string :=
  match v with
  | JNull => "None"
  | JBool true => "True"
  | JBool false => "False"
  | JNum n => str_int n
  | JStr s => s
  | _ => repr v
  end.

(** [' '.join(parts)] where the parts are values: every part must be a str. *)
Fixpoint as_strs (parts : list JSON) : Res (list string) :=
  match parts with
  | [] => Ok []
  | JStr s :: rest =>
      match as_strs rest with
      | Ok l => Ok (s :: l)
      | Raise e => Raise e
      end
  | _ :: _ => Raise TypeError
  end.

Definition py_join_space (parts : list JSON) : Res string :=
  match as_strs parts with
  | Ok l => Ok (join_space l)
  | Raise e => Raise e
  end.

(** *** The size text of a format note

    [round(filesize / (1024*1024), 2)] inside an f-string.  For an integer
    of magnitude below [2^53] the quotient by [2^20] is an exact double,
    [round(_, 2)] rounds its exact value to hundredths with ties to even,
    and [str] prints the shortest decimal that reads back as the result:
    the hundredths with one or two decimals.  [hundredths] and [mb_text]
    compute that text with integers. *)
Definition MiB : Z := 1024 * 1024.

Definition hundredths (n : Z) : Z :=
  let q := (100 * n) / MiB in
  let r := (100 * n) mod MiB in
  if (MiB <? 2 * r)%Z || ((MiB =? 2 * r)%Z && Z.odd q) then q + 1 else q.

Definition decimals (h : Z) : string :=
  let d := h mod 100 in
  if (d mod 10 =? 0)%Z then str_int (d / 10)
  else str_int (d / 10) +:+ str_int (d mod 10).

Definition mb_text (n : Z) : string :=
  let h := hundredths (Z.abs n) in
  (if (n <? 0)%Z then "-" else EmptyString) +:+ str_int (h / 100) +:+ "." +:+ decimals h.

(** [filesize / (1024*1024)], rounded and printed; [True] divides as 1. *)
Definition size_text (filesize : JSON) : Res string :=
  match filesize with
  | JNum n => Ok (mb_text n)
  | JBool b => Ok (mb_text (if b then 1 else 0))
  | _ => Raise TypeError
  end.

(** ** The outside world *)

(** The part of the file system the handlers touch: a path is a directory
    with its listing, in the order [os.listdir] reports it, or a file. *)
Inductive Node : Type :=
| Dir (entries : list string)
| RegularFile.

Abbreviation FS := (gmap string Node).

Inductive Level : Type := INFO | ERROR.

(** The effects of a handler, in the order they happen. *)
Inductive Event : Type :=
| ELog (level : Level) (message : string)
| ESpawn (cmd : Cmd) (timeout : Z)
| EMkdtemp (dir : string)
| ERmtree (dir : string)
| EPost (url : string) (file_name : string) (api_key : string) (timeout : Z).

(** How a child process ends. *)
Inductive ProcOutcome : Type :=
| Exited (returncode : Z) (stdout stderr : string)
| TimedOut
| NotStarted (what : string).

(** How [requests.post] ends. *)
Inductive PostOutcome : Type :=
| Responded (status : Z) (text : string)
| Unreachable.

Record Env : Type := {
  (* os.environ.get('CONOHA_UPLOAD_URL'), os.environ.get('CONOHA_API_KEY') *)
  CONOHA_UPLOAD_URL : option string;
  CONOHA_API_KEY : option string;
  sys_executable : string;
  (* what a child process answers and what it leaves on the file system *)
  run_process : Cmd -> Z -> FS -> ProcOutcome * FS;
  (* json.loads; None when the text is not JSON *)
  json_loads : string -> option JSON;
  (* the directory tempfile makes; None when it cannot make one *)
  mkdtemp : FS -> option string;
  (* what the upload endpoint answers *)
  upload_endpoint : string -> string -> string -> PostOutcome;
  (* str(e) and repr(v) *)
  exn_str : Exn -> string;
  repr : JSON -> string
}.

Record Request : Type := {
  headers : list (string * string);
  (* what request.get_json() returns or raises *)
  get_json : Res JSON
}.

Record Response : Type := {
  body : JSON;
  status_code : Z
}.

(** ** The monad of the handlers *)

Definition M (A : Type) : Type := FS -> Res A * FS * list Event.

Definition result_of {A} (x : Res A * FS * list Event) : Res A := x.1.1.
Definition fs_of {A} (x : Res A * FS * list Event) : FS := x.1.2.
Definition events_of {A} (x : Res A * FS * list Event) : list Event := x.2.

#[global] Instance Res_ret : MRet Res := fun A a => Ok a.
#[global] Instance Res_bind : MBind Res := fun A B k m =>
  match m with
  | Ok a => k a
  | Raise e => Raise e
  end.

#[global] Instance M_ret : MRet M := fun A a fs => (Ok a, fs, []).
#[global] Instance M_bind : MBind M := fun A B k m fs =>
  match m fs with
  | (Ok a, fs1, ev1) =>
      match k a fs1 with
      | (r, fs2, ev2) => (r, fs2, ev1 ++ ev2)
      end
  | (Raise e, fs1, ev1) => (Raise e, fs1, ev1)
  end.

(** A pure computation that may raise. *)
Definition lift {A} (r : Res A) : M A := fun fs => (r, fs, []).

Definition emit (e : Event) : M unit := fun fs => (Ok tt, fs, [e]).

(** [try: body except Exception as e: handler e] *)
Definition try_except {A} (body : M A) (handler : Exn -> M A) : M A := fun fs =>
  match body fs with
  | (Ok a, fs1, ev1) => (Ok a, fs1, ev1)
  | (Raise e, fs1, ev1) =>
      match handler e fs1 with
      | (r, fs2, ev2) => (r, fs2, ev1 ++ ev2)
      end
  end.

(** *** Primitives *)

Definition logger_info (message : string) : M unit := emit (ELog INFO message).
Definition logger_error (message : string) : M unit := emit (ELog ERROR message).

Record CompletedProcess : Type := {
  stdout : string;
  stderr : string
}.

(** [subprocess.run(cmd, check=True, capture_output=True, text=True,
    timeout=timeout)] *)
Definition subprocess_run (E : Env) (cmd : Cmd) (timeout : Z) : M CompletedProcess :=
  fun fs =>
    let '(outcome, fs1) := run_process E cmd timeout fs in
    let r :=
      match outcome with
      | Exited rc out err =>
          if (rc =? 0)%Z then Ok {| stdout := out; stderr := err |}
          else Raise (CalledProcessError rc cmd)
      | TimedOut => Raise (TimeoutExpired cmd timeout)
      | NotStarted what => Raise (OSError what)
      end in
    (r, fs1, [ESpawn cmd timeout]).

(** [os.listdir(path)] *)
Definition os_listdir (path : string) : M (list string) := fun fs =>
  match fs !! path with
  | Some (Dir entries) => (Ok entries, fs, [])
  | Some RegularFile => (Raise (OSError "NotADirectoryError"), fs, [])
  | None => (Raise (OSError "FileNotFoundError"), fs, [])
  end.

(** [open(path, 'rb')] *)
Definition open_rb (path : string) : M unit := fun fs =>
  match fs !! path with
  | Some RegularFile => (Ok tt, fs, [])
  | Some (Dir _) => (Raise (OSError "IsADirectoryError"), fs, [])
  | None => (Raise (OSError "FileNotFoundError"), fs, [])
  end.

(** [path] is [dir] or lies below it. *)
Definition within (dir path : string) : bool :=
  String.eqb path dir || String.prefix (dir +:+ "/") path.

(** [shutil.rmtree(dir)]: the directory and all it holds are gone. *)
Definition rmtree (dir : string) (fs : FS) : FS :=
  filter (fun kv => within dir kv.1 = false) fs.

(** [with TemporaryDirectory() as temp_dir: body temp_dir]: the directory is
    made, the body runs, and whether the body returns or raises the
    directory is removed before the result is passed on. *)
Definition with_TemporaryDirectory {A} (E : Env) (body : string -> M A) : M A :=
  fun fs =>
    match mkdtemp E fs with
    | None => (Raise (OSError "mkdtemp"), fs, [])
    | Some temp_dir =>
        match body temp_dir (<[temp_dir := Dir []]> fs) with
        | (r, fs1, ev1) =>
            (r, rmtree temp_dir fs1, EMkdtemp temp_dir :: ev1 ++ [ERmtree temp_dir])
        end
    end.

(** The response object of [requests]. *)
Record UploadResponse : Type := {
  upload_status : Z;
  upload_text : string
}.

(** [requests.post(url, files={'video': (file_name, f)},
    headers={'X-API-KEY': api_key}, timeout=timeout)] *)
Definition requests_post (E : Env) (url file_name api_key : string) (timeout : Z)
  : M UploadResponse := fun fs =>
  let r :=
    match upload_endpoint E url file_name api_key with
    | Responded status text => Ok {| upload_status := status; upload_text := text |}
    | Unreachable => Raise RequestException
    end in
  (r, fs, [EPost url file_name api_key timeout]).

(** [response.raise_for_status()]: the 4xx and 5xx statuses raise. *)
Definition raise_for_status (response : UploadResponse) : Res unit :=
  let s := upload_status response in
  if ((400 <=? s) && (s <? 600))%Z then Raise (HTTPError s) else Ok tt.

(** [json.loads(text)], [response.json()] *)
Definition loads (E : Env) (text : string) : Res JSON :=
  match json_loads E text with
  | Some v => Ok v
  | None => Raise JSONDecodeError
  end.

(** [headers.get(name)]: header names compare without case. *)
Fixpoint headers_get (hs : list (string * string)) (name : string) : option string :=
  match hs with
  | [] => None
  | (k, v) :: rest =>
      if String.eqb (lower k) (lower name) then Some v else headers_get rest name
  end.

(** [a != b] on two values that are a str or None. *)
Definition opt_str_neq (a b : option string) : bool :=
  match a, b with
  | Some x, Some y => negb (String.eqb x y)
  | None, None => false
  | _, _ => true
  end.

Definition jsonify (v : JSON) (code : Z) : Response :=
  {| body := v; status_code := code |}.

Definition dquote : string := String "034"%char EmptyString.
Definition newline : string := String "010"%char EmptyString.

(** ** The handlers of [app.py] *)

(** [{'status': 'error', 'message': message}] *)
Definition error_envelope (message : string) : JSON :=
  JObj [("status", JStr "error"); ("message", JStr message)].

Definition create_error_response (message : string) (status_code : Z) : M Response :=
  logger_error message;;
  mret (jsonify (error_envelope message) status_code).

(** [POST /update] *)
Definition update_yt_dlp (E : Env) (request : Request) : M Response :=
  let request_api_key := headers_get (headers request) "X-API-KEY" in
  if negb (truthy_opt_str request_api_key)
     || opt_str_neq request_api_key (CONOHA_API_KEY E)
  then create_error_response "認証に失敗しました。" 401
  else
    logger_info "yt-dlpのアップデートを開始します...";;
    try_except
      (let command := [sys_executable E; "-m"; "pip"; "install"; "--upgrade"; "yt-dlp"] in
       result ← subprocess_run E (Argv command) 120;
       let success_message :=
         "yt-dlpのアップデートが完了しました。" +:+ newline +:+ stdout result in
       logger_info success_message;;
       mret (jsonify (JObj [("status", JStr "success");
                            ("message", JStr success_message)]) 200))
      (fun e =>
         create_error_response ("予期せぬエラーが発生しました: " +:+ exn_str E e) 500).

(** [not data or 'url' not in data] *)
Definition url_missing (data : JSON) : Res bool :=
  if negb (truthy data) then Ok true
  else b ← py_in "url" data; Ok (negb b).

(** The URL as it is put on the command line. *)
Definition final_url_of (video_url : string) : string :=
  if contains "youtube.com" video_url || contains "youtu.be" video_url
  then dquote +:+ video_url +:+ dquote
  else video_url.

(** The body of the loop over the formats: the entry of one format. *)
Definition selectable_format (E : Env) (f : JSON) : Res JSON :=
  resolution ← py_get f "resolution" (JStr "audio only");
  ext ← py_get f "ext" JNull;
  reported ← py_get f "filesize" JNull;
  filesize ← (if truthy reported then Ok reported else py_get f "filesize_approx" JNull);
  let note := py_str (repr E) resolution +:+ " (" +:+ py_str (repr E) ext +:+ ")" in
  note ← (if truthy filesize
          then mb ← size_text filesize; Ok (note +:+ " - 約" +:+ mb +:+ "MB")
          else Ok note);
  format_id ← py_getitem f "format_id";
  Ok (JObj [("id", format_id); ("note", JStr note); ("ext", ext)]).

Fixpoint selectable_formats (E : Env) (formats : list JSON) : Res (list JSON) :=
  match formats with
  | [] => Ok []
  | f :: rest =>
      entry ← selectable_format E f;
      entries ← selectable_formats E rest;
      Ok (entry :: entries)
  end.

(** [POST /formats] *)
Definition get_formats (E : Env) (request : Request) : M Response :=
  data ← lift (get_json request);
  missing ← lift (url_missing data);
  if missing : bool
  then create_error_response "ビデオのURLがリクエストに含まれていません。" 400
  else
    url ← lift (py_getitem data "url");
    video_url ← lift (py_strip url);
    logger_info ("フォーマット取得リクエスト: " +:+ video_url);;
    let final_url := final_url_of video_url in
    try_except
      (let command := ["yt-dlp"; "--dump-json"; "--no-playlist"; final_url] in
       result ← subprocess_run E (Shell (join_space command)) 60;
       video_info ← lift (loads E (stdout result));
       formats ← lift (py_get video_info "formats" (JArr []));
       items ← lift (py_iter formats);
       selectable ← lift (selectable_formats E items);
       mret (jsonify (JObj [("status", JStr "success");
                            ("formats", JArr selectable)]) 200))
      (fun e =>
         create_error_response ("yt-dlpの実行に失敗しました: " +:+ exn_str E e) 500).

(** A configuration value that the guard at the top of [download_video]
    found set. *)
Definition configured (o : option string) : string := default EmptyString o.

(** The first [try] block of [download_video]: the downloader is run on
    [temp_dir] and its artifact is located.  The block either leaves the
    handler with an error response or goes on with the name and the path of
    the first file found. *)
Definition locate_artifact (E : Env) (format_id : JSON) (final_url temp_dir : string)
  : M (Response + string * string) :=
  try_except
    (let output_template :=
       dquote +:+ os_path_join temp_dir "%(title)s-[%(format_id)s].%(ext)s"
       +:+ dquote in
     let command := [JStr "yt-dlp"; JStr "--no-playlist"; JStr "-f"; format_id;
                     JStr "-o"; JStr output_template; JStr final_url] in
     line ← lift (py_join_space command);
     subprocess_run E (Shell line) 1800;;
     downloaded_files ← os_listdir temp_dir;
     match downloaded_files with
     | [] =>
         response ← create_error_response
           "yt-dlpによるダウンロードに失敗しました。ファイルが生成されませんでした。" 500;
         mret (inl response)
     | file_name :: _ =>
         let file_path := os_path_join temp_dir file_name in
         logger_info ("ダウンロード成功: " +:+ file_name);;
         mret (inr (file_name, file_path))
     end)
    (fun e =>
       response ← create_error_response
         ("yt-dlpの実行に失敗しました: " +:+ exn_str E e) 500;
       mret (inl response)).

(** The second [try] block of [download_video]: the artifact is sent to the
    upload endpoint and the answer of the endpoint is passed on. *)
Definition relay_artifact (E : Env) (file_name file_path : string) : M Response :=
  try_except
    (logger_info ("ConoHaサーバーへのアップロード開始: " +:+ file_name);;
     open_rb file_path;;
     response ← requests_post E (configured (CONOHA_UPLOAD_URL E)) file_name
                  (configured (CONOHA_API_KEY E)) 600;
     lift (raise_for_status response);;
     logger_info "アップロード成功";;
     uploaded ← lift (loads E (upload_text response));
     mret (jsonify uploaded (upload_status response)))
    (fun e =>
       create_error_response
         ("ConoHaサーバーへのアップロードに失敗しました: " +:+ exn_str E e) 500).

(** The body of the [with TemporaryDirectory() as temp_dir:] block. *)
Definition in_workspace (E : Env) (format_id : JSON) (final_url temp_dir : string)
  : M Response :=
  downloaded ← locate_artifact E format_id final_url temp_dir;
  match downloaded with
  | inl response => mret response
  | inr (file_name, file_path) => relay_artifact E file_name file_path
  end.

(** [POST /download] *)
Definition download_video (E : Env) (request : Request) : M Response :=
  if negb (truthy_opt_str (CONOHA_UPLOAD_URL E))
     || negb (truthy_opt_str (CONOHA_API_KEY E))
  then create_error_response
         "サーバー設定が不完全です。環境変数が設定されていません。" 500
  else
    data ← lift (get_json request);
    missing ← lift (url_missing data);
    if missing : bool
    then create_error_response "ビデオのURLがリクエストに含まれていません。" 400
    else
      url ← lift (py_getitem data "url");
      video_url ← lift (py_strip url);
      format_id ← lift (py_get data "format_id"
                          (JStr "bestvideo[ext=mp4]+bestaudio[ext=m4a]/best[ext=mp4]/best"));
      logger_info ("ダウンロードリクエスト受信: " +:+ video_url +:+ " (Format: "
                   +:+ py_str (repr E) format_id +:+ ")");;
      let final_url := final_url_of video_url in
      with_TemporaryDirectory E (in_workspace E format_id final_url).

(** ** Reading a trace *)

Definition is_spawn (e : Event) : bool :=
  match e with ESpawn _ _ => true | _ => false end.

Definition is_post (e : Event) : bool :=
  match e with EPost _ _ _ _ => true | _ => false end.

Definition is_mkdtemp (e : Event) : bool :=
  match e with EMkdtemp _ => true | _ => false end.

(** The child processes a handler started. *)
Definition spawned (events : list Event) : list Event := List.filter is_spawn events.

(** The uploads a handler attempted. *)
Definition posted (events : list Event) : list Event := List.filter is_post events.

(** ** Requests and bodies named in the properties *)

(** A decoded body that has no [url] field: nothing (or a value that counts
    as false), or an object without the key. *)
Definition lacks_url (data : JSON) : Prop :=
  truthy data = false
  \/ exists members, data = JObj members /\ assoc "url" members = None.

Definition unconfigured (E : Env) : Prop :=
  truthy_opt_str (CONOHA_UPLOAD_URL E) = false
  \/ truthy_opt_str (CONOHA_API_KEY E) = false.

Definition is_configured (E : Env) : Prop :=
  truthy_opt_str (CONOHA_UPLOAD_URL E) = true
  /\ truthy_opt_str (CONOHA_API_KEY E) = true.

(** *** The note of a format, in the words of the specification

    The note combines the resolution, or "audio only" when the entry has
    none, the container extension, and, when the entry carries a byte size
    (reported, else approximate), the size in megabytes to two decimals. *)

Definition field (name : string) (default : JSON) (members : list (string * JSON)) : JSON :=
  match assoc name members with
  | Some v => v
  | None => default
  end.

Definition base_note (E : Env) (members : list (string * JSON)) : string :=
  py_str (repr E) (field "resolution" (JStr "audio only") members)
  +:+ " (" +:+ py_str (repr E) (field "ext" JNull members) +:+ ")".

Definition size_suffix (n : Z) : string := " - 約" +:+ mb_text n +:+ "MB".

(** The byte count a size field carries, when it carries one that is not
    zero. *)
Definition nonzero_size (o : option JSON) : option Z :=
  match o with
  | Some (JNum n) => if (n =? 0)%Z then None else Some n
  | _ => None
  end.

Definition byte_size (members : list (string * JSON)) : option Z :=
  match nonzero_size (assoc "filesize" members) with
  | Some n => Some n
  | None => nonzero_size (assoc "filesize_approx" members)
  end.

Definition spec_note (E : Env) (members : list (string * JSON)) : string :=
  base_note E members
  +:+ match byte_size members with
      | Some n => size_suffix n
      | None => EmptyString
      end.

(** A size field as the downloader writes it: not there, null, or a number. *)
Definition size_field_ok (o : option JSON) : Prop :=
  match o with
  | None | Some JNull | Some (JNum _) => True
  | _ => False
  end.

(** A size field that holds a byte count: not there, null, or an integer
    from 0 up to [2^53], the range in which Python's quotient by [2^20] is
    exact. *)
Definition byte_count_or_none (o : option JSON) : Prop :=
  match o with
  | None | Some JNull => True
  | Some (JNum n) => 0 <= n < 2 ^ 53
  | _ => False
  end.

(** *** Reading a size text

    The number that a decimal numeral denotes, counted in hundredths.  The
    numeral has to be the shortest one of its number that shows a decimal:
    a whole part of decimal digits without a leading zero (a lone 0 apart),
    a point, and one decimal, or two of which the last is not 0.  Nothing
    here refers to [mb_text]. *)
Definition digit_of (c : ascii) : option Z :=
  let n := nat_of_ascii c in
  if ((48 <=? n) && (n <=? 57))%nat then Some (Z.of_nat (n - 48)) else None.

Fixpoint digits_value (acc : Z) (s : string) : option Z :=
  match s with
  | EmptyString => Some acc
  | String c s' =>
      match digit_of c with
      | Some d => digits_value (10 * acc + d) s'
      | None => None
      end
  end.

Definition read_whole (w : string) : option Z :=
  match w with
  | EmptyString => None
  | String c rest =>
      if Ascii.eqb c "0" && negb (String.eqb rest EmptyString) then None
      else digits_value 0 w
  end.

Definition read_decimals (f : string) : option Z :=
  match f with
  | String c EmptyString =>
      match digit_of c with
      | Some d => Some (10 * d)
      | None => None
      end
  | String c (String c' EmptyString) =>
      match digit_of c, digit_of c' with
      | Some d, Some d' => if (d' =? 0)%Z then None else Some (10 * d + d')
      | _, _ => None
      end
  | _ => None
  end.

Fixpoint split_at_point (s : string) : option (string * string) :=
  match s with
  | EmptyString => None
  | String c s' =>
      if Ascii.eqb c "." then Some (EmptyString, s')
      else match split_at_point s' with
           | Some (w, f) => Some (String c w, f)
           | None => None
           end
  end.

Definition read_hundredths (text : string) : option Z :=
  match split_at_point text with
  | Some (w, f) =>
      match read_whole w, read_decimals f with
      | Some whole, Some part => Some (100 * whole + part)
      | _, _ => None
      end
  | None => None
  end.

(** [mb] shows [n] bytes in megabytes, rounded to two decimals: it is the
    numeral of [h] hundredths, where [h / 100] is as near to [n / 2^20] as
    hundredths get and, of two that are equally near, the even one. *)
Definition shows_megabytes (n : Z) (mb : string) : Prop :=
  exists h,
    read_hundredths mb = Some h
    /\ 2 * Z.abs (100 * n - h * MiB) <= MiB
    /\ (2 * Z.abs (100 * n - h * MiB) = MiB -> Z.even h = true).

(** The note of the entry [selectable_format] returns. *)
Definition note_of (entry : Res JSON) : option string :=
  match entry with
  | Ok (JObj members) =>
      match assoc "note" members with
      | Some (JStr note) => Some note
      | _ => None
      end
  | _ => None
  end.


(** An entry of a manifest that carries no size. *)
Definition unsized_entry : list (string * JSON) :=
  [("format_id", JStr "137"); ("ext", JStr "mp4"); ("resolution", JStr "1920x1080")].

(** The command line [get_formats] hands to the shell for a trimmed URL. *)
Definition probe_command (video_url : string) : Cmd :=
  Shell (join_space ["yt-dlp"; "--dump-json"; "--no-playlist"; final_url_of video_url]).

(** [{'status': 'success', 'formats': entries}] *)
Definition formats_envelope (entries : list JSON) : JSON :=
  JObj [("status", JStr "success"); ("formats", JArr entries)].

(** The command line [download_video] hands to the shell. *)
Definition download_command (format_id final_url temp_dir : string) : Cmd :=
  Shell (join_space
           ["yt-dlp"; "--no-playlist"; "-f"; format_id; "-o";
            dquote +:+ os_path_join temp_dir "%(title)s-[%(format_id)s].%(ext)s"
            +:+ dquote;
            final_url]).

Definition default_format : string :=
  "bestvideo[ext=mp4]+bestaudio[ext=m4a]/best[ext=mp4]/best".

(** The run of the [with] block of [download_video] in a workspace that was
    just made. *)
Definition run_in_workspace (E : Env) (format_id final_url temp_dir : string) (fs : FS)
  : Res Response * FS * list Event :=
  in_workspace E (JStr format_id) final_url temp_dir (<[temp_dir := Dir []]> fs).

(** ** A deployment to run the handlers in

    [scenario] is an environment in which both configuration values are
    those given, the downloader ends as [tool] says after leaving [files] in
    the directory it is pointed at, and the upload endpoint answers
    [answer]. *)

Definition quoted (s : string) : string := dquote +:+ s +:+ dquote.

(** [{"id": "xyz"}] *)
Definition upload_receipt_text : string :=
  "{" +:+ quoted "id" +:+ ": " +:+ quoted "xyz" +:+ "}".

(** [{"formats": []}] *)
Definition empty_manifest_text : string :=
  "{" +:+ quoted "formats" +:+ ": []}".

Definition known_documents : list (string * JSON) :=
  [ (upload_receipt_text, JObj [("id", JStr "xyz")]);
    (empty_manifest_text, JObj [("formats", JArr [])]) ].

Definition scenario_tmp : string := "/tmp/tmpk3v9x1qa".

Definition write_files (dir : string) (files : list string) (fs : FS) : FS :=
  foldr (fun name acc => <[os_path_join dir name := RegularFile]> acc)
        (<[dir := Dir files]> fs) files.

Definition scenario_exn_str (e : Exn) : string :=
  match e with
  | TypeError => "TypeError"
  | AttributeError => "AttributeError"
  | KeyError key => "'" +:+ key +:+ "'"
  | JSONDecodeError => "Expecting value: line 1 column 1 (char 0)"
  | CalledProcessError rc _ => "Command returned non-zero exit status " +:+ str_int rc
  | TimeoutExpired _ t => "Command timed out after " +:+ str_int t +:+ " seconds"
  | OSError what => what
  | HTTPError status => str_int status +:+ " Error"
  | RequestException => "Connection refused"
  | HTTPException code => str_int code
  end.

Definition scenario (upload_url api_key : option string) (tool : ProcOutcome)
    (files : list string) (answer : PostOutcome) : Env :=
  {| CONOHA_UPLOAD_URL := upload_url;
     CONOHA_API_KEY := api_key;
     sys_executable := "/usr/bin/python3";
     run_process := fun cmd timeout fs =>
       match cmd with
       | Shell line =>
           if contains "--dump-json" line then (tool, fs)
           else (tool, write_files scenario_tmp files fs)
       | Argv _ => (tool, fs)
       end;
     json_loads := fun text => assoc text known_documents;
     mkdtemp := fun _ => Some scenario_tmp;
     upload_endpoint := fun _ _ _ => answer;
     exn_str := scenario_exn_str;
     repr := fun _ => "[...]" |}.

Definition json_request (data : JSON) : Request :=
  {| headers := [("Content-Type", "application/json")]; get_json := Ok data |}.

(** A request whose body [request.get_json()] turns down: it aborts with
    the status 400 of a body that cannot be decoded. *)
Definition undecodable_request : Request :=
  {| headers := [("Content-Type", "application/json")];
     get_json := Raise (HTTPException 400) |}.

Definition keyed_request (key : string) : Request :=
  {| headers := [("Content-Type", "application/json"); ("X-Api-Key", key)];
     get_json := Ok JNull |}.

(** The deployment of the specification's scenario: the configuration is
    complete, the downloader leaves one file and the endpoint answers 201
    with a receipt. *)
Definition relay_scenario : Env :=
  scenario (Some "https://storage.example/upload") (Some "s3cret")
           (Exited 0 EmptyString EmptyString) ["Title-[18].mp4"]
           (Responded 201 upload_receipt_text).

Definition youtu_request : Request :=
  json_request (JObj [("url", JStr "https://youtu.be/abc123")]).

(** The downloader exits with status 0 and leaves nothing. *)
Definition no_artifact_scenario : Env :=
  scenario (Some "https://storage.example/upload") (Some "s3cret")
           (Exited 0 EmptyString EmptyString) [] Unreachable.

(** The endpoint answers 200 with the plain text [OK]. *)
Definition plain_answer_scenario : Env :=
  scenario (Some "https://storage.example/upload") (Some "s3cret")
           (Exited 0 EmptyString EmptyString) ["Title-[18].mp4"]
           (Responded 200 "OK").

(** The endpoint answers 300 (several representations, none chosen for the
    client) with a JSON body. *)
Definition multiple_choices_scenario : Env :=
  scenario (Some "https://storage.example/upload") (Some "s3cret")
           (Exited 0 EmptyString EmptyString) ["Title-[18].mp4"]
           (Responded 300 upload_receipt_text).

(** ** The shell's reading of a word

    [/bin/sh] gives the characters [| & ; < > ( ) $], the backquote, the
    backslash, both quotes, the space, the tab and the newline a meaning of
    their own unless they are quoted, and in places also [~ # * ? [], which
    are counted here wherever they stand bare.
    Between double quotes [$] and the backquote keep theirs; a backslash
    quotes the character after it; between single quotes nothing has a
    meaning but the closing quote. *)

Inductive Quoting : Type := Bare | DoubleQuoted | SingleQuoted.

Definition backslash : ascii := "092"%char.
Definition double_quote : ascii := "034"%char.
Definition single_quote : ascii := "039"%char.
Definition backquote : ascii := "096"%char.

Definition expands (c : ascii) : bool :=
  Ascii.eqb c "$"%char || Ascii.eqb c backquote.

Definition operator_or_blank (c : ascii) : bool :=
  existsb (Ascii.eqb c)
    ["|"; "&"; ";"; "<"; ">"; "("; ")"; " "; "009"; "010";
     "~"; "#"; "*"; "?"; "["]%char.

(** [literal_word q escaped word]: read from the quoting state [q], every
    character of [word] stands for itself and the word is closed at its
    end; the shell then passes the word on as one argument. *)
Fixpoint literal_word (q : Quoting) (escaped : bool) (word : string) : bool :=
  match word with
  | EmptyString =>
      match q with
      | Bare => negb escaped
      | _ => false
      end
  | String c rest =>
      if escaped then literal_word q false rest
      else
        match q with
        | Bare =>
            if Ascii.eqb c backslash then literal_word Bare true rest
            else if Ascii.eqb c double_quote then literal_word DoubleQuoted false rest
            else if Ascii.eqb c single_quote then literal_word SingleQuoted false rest
            else negb (expands c || operator_or_blank c)
                 && literal_word Bare false rest
        | DoubleQuoted =>
            if Ascii.eqb c backslash then literal_word DoubleQuoted true rest
            else if Ascii.eqb c double_quote then literal_word Bare false rest
            else negb (expands c) && literal_word DoubleQuoted false rest
        | SingleQuoted =>
            if Ascii.eqb c single_quote then literal_word Bare false rest
            else literal_word SingleQuoted false rest
        end
  end.

(** The text is safe to put on a command line as one argument. *)
Definition shell_safe (word : string) : bool := literal_word Bare false word.

(** ** The workspace discipline *)

(** A computation that makes no temporary directory. *)
Definition quiet {A} (m : M A) : Prop :=
  forall fs, Forall (fun e => is_mkdtemp e = false) (events_of (m fs)).


(** ** The remaining route and the shape of a call *)

(** [GET /] *)
Definition index : string := "Download API is running. (v4: CORS enabled)".

Definition is_log (e : Event) : bool :=
  match e with ELog _ _ => true | _ => false end.

(** The phases of one call to [download_video], as its trace shows them:
    nothing yet, the workspace made, the downloader run, the upload sent,
    the workspace removed. *)
Inductive Phase : Type :=
| Idle
| Workspace (dir : string)
| Downloaded (dir : string)
| Uploaded (dir : string)
| Removed.

(** [follows phase events]: from [phase] the events come in the order of
    the pipeline, once through, and leave no workspace open.  A directory is
    made only at the start, the downloader runs once and only in the fresh
    workspace, the upload is sent once and only after the downloader ran,
    the directory removed is the one that was made, and after its removal
    nothing happens but logging. *)
Fixpoint follows (phase : Phase) (events : list Event) : bool :=
  match events with
  | [] => match phase with Idle | Removed => true | _ => false end
  | ELog _ _ :: rest => follows phase rest
  | EMkdtemp dir :: rest =>
      match phase with
      | Idle => follows (Workspace dir) rest
      | _ => false
      end
  | ESpawn _ _ :: rest =>
      match phase with
      | Workspace dir => follows (Downloaded dir) rest
      | _ => false
      end
  | EPost _ _ _ _ :: rest =>
      match phase with
      | Downloaded dir => follows (Uploaded dir) rest
      | _ => false
      end
  | ERmtree dir :: rest =>
      match phase with
      | Workspace made | Downloaded made | Uploaded made =>
          String.eqb dir made && follows Removed rest
      | Idle | Removed => false
      end
  end.

(** An upload as [download_video] sends it: to the configured endpoint,
    with the configured secret, under the 600 s deadline. *)
Definition sent_as_configured (E : Env) (e : Event) : Prop :=
  match e with
  | EPost url _ api_key timeout =>
      CONOHA_UPLOAD_URL E = Some url /\ url <> EmptyString
      /\ CONOHA_API_KEY E = Some api_key /\ api_key <> EmptyString
      /\ timeout = 600
  | _ => True
  end.

(** The one child process of [update_yt_dlp]: pip, by argument vector. *)
Definition pip_upgrade (E : Env) : Event :=
  ESpawn (Argv [sys_executable E; "-m"; "pip"; "install"; "--upgrade"; "yt-dlp"]) 120.

(** An error answer: the envelope with one of the given statuses, its
    message also written to the error log. *)
Definition logged_error (codes : list Z) (events : list Event) (response : Response)
  : Prop :=
  exists message,
    body response = error_envelope message
    /\ In (status_code response) codes
    /\ In (ELog ERROR message) events.

(** [{'status': 'success', 'message': message}] after an upgrade that
    printed [out]. *)
Definition upgrade_envelope (out : string) : JSON :=
  JObj [("status", JStr "success");
        ("message", JStr ("yt-dlpのアップデートが完了しました。" +:+ newline +:+ out))].

(** A request that [update_yt_dlp] lets through: its key is not empty and
    is the configured secret. *)
Definition authorised (E : Env) (request : Request) : Prop :=
  exists key,
    headers_get (headers request) "X-API-KEY" = Some key
    /\ key <> EmptyString
    /\ CONOHA_API_KEY E = Some key.

(** [entry] is the entry [get_formats] lists for the format [f]: the
    identifier and the extension of [f], with a note. *)
Definition entry_of (f entry : JSON) : Prop :=
  exists members format_id note,
    f = JObj members
    /\ assoc "format_id" members = Some format_id
    /\ entry = JObj [("id", format_id); ("note", JStr note);
                     ("ext", field "ext" JNull members)].





(** A value that is not a str. *)
Definition not_a_str (v : JSON) : Prop :=
  match v with
  | JStr _ => False
  | _ => True
  end.


(** The downloader leaves its file and the endpoint cannot be reached. *)
Definition unreachable_scenario : Env :=
  scenario (Some "https://storage.example/upload") (Some "s3cret")
           (Exited 0 EmptyString EmptyString) ["Title-[18].mp4"] Unreachable.

(** The downloader exits with status 0 and leaves a directory of
    fragments, no file. *)
Definition fragments_scenario : Env :=
  {| CONOHA_UPLOAD_URL := CONOHA_UPLOAD_URL relay_scenario;
     CONOHA_API_KEY := CONOHA_API_KEY relay_scenario;
     sys_executable := sys_executable relay_scenario;
     run_process := fun cmd timeout fs =>
       (Exited 0 EmptyString EmptyString,
        <[os_path_join scenario_tmp "fragments" := Dir []]>
          (<[scenario_tmp := Dir ["fragments"]]> fs));
     json_loads := json_loads relay_scenario;
     mkdtemp := mkdtemp relay_scenario;
     upload_endpoint := upload_endpoint relay_scenario;
     exn_str := exn_str relay_scenario;
     repr := repr relay_scenario |}.

(** [p] holds of every character of [s]. *)
Fixpoint every (p : ascii -> bool) (s : string) : bool :=
  match s with
  | EmptyString => true
  | String c rest => p c && every p rest
  end.

(** A character that stands for itself between double quotes. *)
Definition plain_in_quotes (c : ascii) : bool :=
  negb (Ascii.eqb c backslash || Ascii.eqb c double_quote || expands c).

(** * Properties *)

Example mb_text_examples :
  map mb_text [1048576; 131072; 12897484; 1; 5767168; 1101005; -1] =
  ["1.0"; "0.12"; "12.3"; "0.0"; "5.5"; "1.05"; "-0.0"].
Proof. vm_compute. reflexivity. Qed.

Example strip_example : strip "  https://youtu.be/abc123 " = "https://youtu.be/abc123".
Proof. reflexivity. Qed.

(** ** Running the monad *)

Lemma bind_lift_Ok {A B} (a : A) (k : A -> M B) (fs : FS) :
  (lift (Ok a) ≫= k) fs = k a fs.
Proof.
  unfold mbind, M_bind, lift. destruct (k a fs) as [[r fs2] ev2]. reflexivity.
Qed.

Lemma bind_lift_Raise {A B} (e : Exn) (k : A -> M B) (fs : FS) :
  (lift (Raise e) ≫= k) fs = (Raise e, fs, []).
Proof. reflexivity. Qed.

Lemma bind_emit {B} (e : Event) (k : unit -> M B) (fs : FS) :
  (emit e ≫= k) fs = (result_of (k tt fs), fs_of (k tt fs), e :: events_of (k tt fs)).
Proof.
  unfold mbind, M_bind, emit, result_of, fs_of, events_of.
  destruct (k tt fs) as [[r fs2] ev2]. reflexivity.
Qed.

(** Unfolds the plumbing of the monad and reduces what it can: the next
    primitive that needs a fact about the environment is left in head
    position of a [match]. *)
Ltac run_monad :=
  cbv beta iota zeta delta
    [mbind M_bind mret M_ret lift try_except emit logger_info logger_error
     create_error_response result_of fs_of events_of fst snd].

(** ** [/update]: the shared secret *)

Lemma opt_str_neq_true (a b : option string) : a <> b -> opt_str_neq a b = true.
Proof.
  destruct a as [x|], b as [y|]; simpl; try reflexivity.
  - intros Hne. destruct (String.eqb_spec x y) as [->|]; [congruence | reflexivity].
  - congruence.
Qed.

(** What [update_yt_dlp] does when its guard fires. *)
Lemma update_guard_fires (E : Env) (request : Request) (fs : FS) :
  negb (truthy_opt_str (headers_get (headers request) "X-API-KEY"))
  || opt_str_neq (headers_get (headers request) "X-API-KEY") (CONOHA_API_KEY E) = true ->
  update_yt_dlp E request fs =
    (Ok (jsonify (error_envelope "認証に失敗しました。") 401), fs,
     [ELog ERROR "認証に失敗しました。"]).
Proof.
  intros Hguard. unfold update_yt_dlp. rewrite Hguard. reflexivity.
Qed.

(** C8: a request to [/update] whose [X-API-KEY] header is absent or differs
    from the configured shared secret is answered with the 401 error
    envelope, and no child process is started: the only effect is the line
    in the error log. *)
Theorem update_without_valid_key_is_401 (E : Env) (request : Request) (fs : FS) :
  headers_get (headers request) "X-API-KEY" = None
  \/ headers_get (headers request) "X-API-KEY" <> CONOHA_API_KEY E ->
  result_of (update_yt_dlp E request fs)
    = Ok (jsonify (error_envelope "認証に失敗しました。") 401)
  /\ spawned (events_of (update_yt_dlp E request fs)) = []
  /\ fs_of (update_yt_dlp E request fs) = fs.
Proof.
  intros Hkey. rewrite update_guard_fires; [repeat split |].
  destruct Hkey as [-> | Hne]; [reflexivity |].
  rewrite (opt_str_neq_true _ _ Hne). apply orb_true_r.
Qed.

(** C10: when the shared secret is unset in the environment, every request
    to [/update] is answered with the 401 error envelope, whatever its
    [X-API-KEY] header holds, and no child process is started. *)
Theorem update_unset_secret_is_401 (E : Env) (request : Request) (fs : FS) :
  CONOHA_API_KEY E = None ->
  result_of (update_yt_dlp E request fs)
    = Ok (jsonify (error_envelope "認証に失敗しました。") 401)
  /\ spawned (events_of (update_yt_dlp E request fs)) = [].
Proof.
  intros Hunset. rewrite update_guard_fires; [split; reflexivity |].
  rewrite Hunset.
  destruct (headers_get (headers request) "X-API-KEY") as [k|]; simpl;
    [apply orb_true_r | reflexivity].
Qed.

Lemma update_without_valid_key_witness :
  result_of (update_yt_dlp
               (scenario (Some "https://storage.example/upload") (Some "s3cret")
                         (Exited 0 EmptyString EmptyString) [] Unreachable)
               (keyed_request "guess") ∅)
    = Ok (jsonify (error_envelope "認証に失敗しました。") 401)
  /\ spawned (events_of (update_yt_dlp
               (scenario (Some "https://storage.example/upload") (Some "s3cret")
                         (Exited 0 EmptyString EmptyString) [] Unreachable)
               (keyed_request "guess") ∅)) = []
  /\ fs_of (update_yt_dlp
               (scenario (Some "https://storage.example/upload") (Some "s3cret")
                         (Exited 0 EmptyString EmptyString) [] Unreachable)
               (keyed_request "guess") ∅) = ∅.
Proof.
  apply update_without_valid_key_is_401. right. simpl. discriminate.
Defined.

Lemma update_unset_secret_witness :
  result_of (update_yt_dlp
               (scenario (Some "https://storage.example/upload") None
                         (Exited 0 EmptyString EmptyString) [] Unreachable)
               (keyed_request "anything") ∅)
    = Ok (jsonify (error_envelope "認証に失敗しました。") 401)
  /\ spawned (events_of (update_yt_dlp
               (scenario (Some "https://storage.example/upload") None
                         (Exited 0 EmptyString EmptyString) [] Unreachable)
               (keyed_request "anything") ∅)) = [].
Proof.
  apply update_unset_secret_is_401. reflexivity.
Defined.

(** With the right key the upgrade does run (the guard is not vacuous). *)
Example update_with_key_runs_pip :
  spawned (events_of (update_yt_dlp
             (scenario None (Some "s3cret") (Exited 0 "ok" EmptyString) [] Unreachable)
             (keyed_request "s3cret") ∅))
  = [ESpawn (Argv ["/usr/bin/python3"; "-m"; "pip"; "install"; "--upgrade"; "yt-dlp"]) 120].
Proof. reflexivity. Qed.

(** ** [/formats] and [/download]: a body without [url] *)

Lemma url_missing_lacks (data : JSON) : lacks_url data -> url_missing data = Ok true.
Proof.
  intros [Hfalse | (members & -> & Hnone)]; unfold url_missing.
  - rewrite Hfalse. reflexivity.
  - destruct members as [|kv members]; [reflexivity |].
    simpl truthy. simpl negb. cbv iota.
    unfold py_in. rewrite Hnone. reflexivity.
Qed.

Lemma get_formats_without_url (E : Env) (request : Request) (fs : FS) (data : JSON) :
  get_json request = Ok data -> lacks_url data ->
  get_formats E request fs =
    (Ok (jsonify (error_envelope "ビデオのURLがリクエストに含まれていません。") 400), fs,
     [ELog ERROR "ビデオのURLがリクエストに含まれていません。"]).
Proof.
  intros Hjson Hlacks. unfold get_formats.
  rewrite Hjson, bind_lift_Ok, (url_missing_lacks _ Hlacks), bind_lift_Ok.
  reflexivity.
Qed.

Lemma download_unconfigured (E : Env) (request : Request) (fs : FS) :
  unconfigured E ->
  download_video E request fs =
    (Ok (jsonify (error_envelope
           "サーバー設定が不完全です。環境変数が設定されていません。") 500), fs,
     [ELog ERROR "サーバー設定が不完全です。環境変数が設定されていません。"]).
Proof.
  intros Hun. unfold download_video.
  replace (negb (truthy_opt_str (CONOHA_UPLOAD_URL E))
           || negb (truthy_opt_str (CONOHA_API_KEY E))) with true; [reflexivity |].
  destruct Hun as [-> | ->]; simpl; [reflexivity | symmetry; apply orb_true_r].
Qed.

Lemma download_without_url (E : Env) (request : Request) (fs : FS) (data : JSON) :
  is_configured E -> get_json request = Ok data -> lacks_url data ->
  download_video E request fs =
    (Ok (jsonify (error_envelope "ビデオのURLがリクエストに含まれていません。") 400), fs,
     [ELog ERROR "ビデオのURLがリクエストに含まれていません。"]).
Proof.
  intros [Hurl Hkey] Hjson Hlacks. unfold download_video.
  rewrite Hurl, Hkey. change (negb true || negb true) with false. cbv iota.
  rewrite Hjson, bind_lift_Ok, (url_missing_lacks _ Hlacks), bind_lift_Ok.
  reflexivity.
Qed.

(** C3 as stated fails on [/download]: the configuration is checked before
    the body, so a body without [url] sent to a deployment without its
    configuration is answered 500, not 400. *)
Lemma download_without_url_unconfigured_is_500 :
  lacks_url (JObj [("format_id", JStr "18")])
  /\ result_of (download_video
                  (scenario None None (Exited 0 EmptyString EmptyString) [] Unreachable)
                  (json_request (JObj [("format_id", JStr "18")])) ∅)
     = Ok (jsonify (error_envelope
             "サーバー設定が不完全です。環境変数が設定されていません。") 500)
  /\ ~ (exists message,
         result_of (download_video
                      (scenario None None (Exited 0 EmptyString EmptyString) [] Unreachable)
                      (json_request (JObj [("format_id", JStr "18")])) ∅)
         = Ok (jsonify (error_envelope message) 400)).
Proof.
  split; [right; eexists; split; reflexivity |].
  split; [reflexivity |].
  intros [message Hmessage]. vm_compute in Hmessage. discriminate Hmessage.
Qed.

(** C3, amended: a request to [/formats] whose decoded body has no [url]
    field ([request.get_json()] returns null or another value that counts as
    false, or an object without the key) is answered with the 400 error
    envelope; so is a request to [/download] when both configuration values
    are set, and when one is not set the answer to [/download] is the 500
    configuration error envelope, whatever the body.  When
    [request.get_json()] itself turns the body down (no body, or one that is
    not JSON), its exception leaves the handler, which then makes no
    envelope.  In all these cases no child process is started. *)
Theorem missing_url_is_rejected (E : Env) (request : Request) (fs : FS) :
  (forall data, get_json request = Ok data -> lacks_url data ->
     (result_of (get_formats E request fs)
        = Ok (jsonify (error_envelope "ビデオのURLがリクエストに含まれていません。") 400)
      /\ spawned (events_of (get_formats E request fs)) = [])
     /\ (is_configured E ->
         result_of (download_video E request fs)
           = Ok (jsonify (error_envelope "ビデオのURLがリクエストに含まれていません。") 400)
         /\ spawned (events_of (download_video E request fs)) = []))
  /\ (forall e, get_json request = Raise e ->
       get_formats E request fs = (Raise e, fs, [])
       /\ (is_configured E -> download_video E request fs = (Raise e, fs, [])))
  /\ (unconfigured E ->
      result_of (download_video E request fs)
        = Ok (jsonify (error_envelope
                "サーバー設定が不完全です。環境変数が設定されていません。") 500)
      /\ spawned (events_of (download_video E request fs)) = []).
Proof.
  split; [| split].
  - intros data Hjson Hlacks. split; [| intros Hconfigured].
    + rewrite (get_formats_without_url _ _ _ _ Hjson Hlacks). split; reflexivity.
    + rewrite (download_without_url _ _ _ _ Hconfigured Hjson Hlacks).
      split; reflexivity.
  - intros e Hraise. split; [| intros [Hupload Hkey]].
    + unfold get_formats. rewrite Hraise. reflexivity.
    + unfold download_video. rewrite Hupload, Hkey, Hraise. reflexivity.
  - intros Hunconfigured. rewrite (download_unconfigured _ _ _ Hunconfigured).
    split; reflexivity.
Qed.

Lemma missing_url_is_rejected_witness :
  ((result_of (get_formats relay_scenario
                 (json_request (JObj [("format_id", JStr "18")])) ∅)
      = Ok (jsonify (error_envelope "ビデオのURLがリクエストに含まれていません。") 400)
    /\ spawned (events_of (get_formats relay_scenario
                 (json_request (JObj [("format_id", JStr "18")])) ∅)) = [])
   /\ (result_of (download_video relay_scenario
                 (json_request (JObj [("format_id", JStr "18")])) ∅)
      = Ok (jsonify (error_envelope "ビデオのURLがリクエストに含まれていません。") 400)
    /\ spawned (events_of (download_video relay_scenario
                 (json_request (JObj [("format_id", JStr "18")])) ∅)) = []))
  /\ (get_formats relay_scenario undecodable_request ∅
       = (Raise (HTTPException 400), ∅, [])
      /\ download_video relay_scenario undecodable_request ∅
         = (Raise (HTTPException 400), ∅, [])).
Proof.
  split.
  - destruct (missing_url_is_rejected relay_scenario
                (json_request (JObj [("format_id", JStr "18")])) ∅)
      as (Hmissing & _ & _).
    destruct (Hmissing (JObj [("format_id", JStr "18")]) eq_refl
                (or_intror (ex_intro _ [("format_id", JStr "18")]
                              (conj eq_refl eq_refl))))
      as [Hformats Hdownload].
    split; [exact Hformats | apply Hdownload; split; reflexivity].
  - destruct (missing_url_is_rejected relay_scenario undecodable_request ∅)
      as (_ & Hraises & _).
    destruct (Hraises (HTTPException 400) eq_refl) as [Hformats Hdownload].
    split; [exact Hformats | apply Hdownload; split; reflexivity].
Defined.

(** A body that is a number is neither: the membership test raises and the
    handler does not catch it.  No child process is started either. *)
Example number_body_is_not_handled :
  result_of (get_formats relay_scenario (json_request (JNum 5)) ∅) = Raise TypeError
  /\ events_of (get_formats relay_scenario (json_request (JNum 5)) ∅) = [].
Proof. split; reflexivity. Qed.

(** ** [/formats]: the list of formats *)

Lemma url_missing_has_url (data v : JSON) :
  py_getitem data "url" = Ok v -> url_missing data = Ok false.
Proof.
  destruct data as [| | | | |members]; try discriminate.
  unfold py_getitem, url_missing, py_in.
  destruct members as [|kv members]; [discriminate |].
  destruct (assoc "url" (kv :: members)); [reflexivity | discriminate].
Qed.

(** [get_formats] on a body with a [url] string, up to the probe. *)
Lemma get_formats_probes (E : Env) (request : Request) (fs : FS) (data : JSON)
    (url : string) :
  get_json request = Ok data ->
  py_getitem data "url" = Ok (JStr url) ->
  get_formats E request fs =
    (logger_info ("フォーマット取得リクエスト: " +:+ strip url);;
     try_except
       (result ← subprocess_run E (probe_command (strip url)) 60;
        video_info ← lift (loads E (stdout result));
        formats ← lift (py_get video_info "formats" (JArr []));
        items ← lift (py_iter formats);
        selectable ← lift (selectable_formats E items);
        mret (jsonify (formats_envelope selectable) 200))
       (fun e =>
          create_error_response ("yt-dlpの実行に失敗しました: " +:+ exn_str E e) 500)) fs.
Proof.
  intros Hjson Hurl. unfold get_formats.
  rewrite Hjson, bind_lift_Ok, (url_missing_has_url _ _ Hurl), bind_lift_Ok.
  cbv iota. rewrite Hurl, bind_lift_Ok. unfold py_strip. rewrite bind_lift_Ok.
  reflexivity.
Qed.

(** The probe succeeded and printed [out]. *)
Lemma subprocess_run_exit0 (E : Env) (cmd : Cmd) (timeout : Z) (fs fs1 : FS)
    (out err : string) :
  run_process E cmd timeout fs = (Exited 0 out err, fs1) ->
  subprocess_run E cmd timeout fs =
    (Ok {| stdout := out; stderr := err |}, fs1, [ESpawn cmd timeout]).
Proof. intros Hrun. unfold subprocess_run. rewrite Hrun. reflexivity. Qed.

(** C7: when the probe succeeds and its manifest holds no formats (the
    [formats] field is an empty list or is not there), [/formats] answers
    200 with the success envelope around an empty list. *)
Theorem formats_of_empty_manifest (E : Env) (request : Request) (fs fs1 : FS)
    (data : JSON) (url out err : string) (members : list (string * JSON)) :
  get_json request = Ok data ->
  py_getitem data "url" = Ok (JStr url) ->
  run_process E (probe_command (strip url)) 60 fs = (Exited 0 out err, fs1) ->
  json_loads E out = Some (JObj members) ->
  assoc "formats" members = None \/ assoc "formats" members = Some (JArr []) ->
  result_of (get_formats E request fs) = Ok (jsonify (formats_envelope []) 200).
Proof.
  intros Hjson Hurl Hrun Hloads Hformats.
  rewrite (get_formats_probes _ _ _ _ _ Hjson Hurl). run_monad.
  rewrite (subprocess_run_exit0 _ _ _ _ _ _ _ Hrun). run_monad.
  cbn [stdout]. unfold loads. rewrite Hloads. run_monad.
  unfold py_get. destruct Hformats as [-> | ->]; reflexivity.
Qed.

Lemma formats_of_empty_manifest_witness :
  result_of (get_formats
               (scenario None None (Exited 0 empty_manifest_text EmptyString) [] Unreachable)
               (json_request (JObj [("url", JStr "https://youtu.be/abc123")])) ∅)
  = Ok (jsonify (formats_envelope []) 200).
Proof.
  apply (formats_of_empty_manifest _ _ ∅ ∅
           (JObj [("url", JStr "https://youtu.be/abc123")])
           "https://youtu.be/abc123" empty_manifest_text EmptyString
           [("formats", JArr [])]); try reflexivity.
  right. reflexivity.
Defined.

(** *** The note of one format *)

Lemma append_nil_r (s : string) : s +:+ EmptyString = s.
Proof.
  induction s as [|c s IH]; [reflexivity |].
  change (String c (s +:+ EmptyString) = String c s). now rewrite IH.
Qed.

Lemma append_assoc (a b c : string) : (a +:+ b) +:+ c = a +:+ (b +:+ c).
Proof.
  induction a as [|x a IH]; [reflexivity |].
  change (String x ((a +:+ b) +:+ c) = String x (a +:+ (b +:+ c))). now rewrite IH.
Qed.


Lemma assoc_app {A} (k : string) (l1 l2 : list (string * A)) :
  assoc k (l1 ++ l2) = match assoc k l1 with Some v => Some v | None => assoc k l2 end.
Proof.
  induction l1 as [|[k' v] l1 IH]; simpl; [reflexivity |].
  destruct (String.eqb k k'); [reflexivity | exact IH].
Qed.

(** The entry [selectable_format] builds for an object, by the size it
    finds: [None] when neither field counts as true. *)
Lemma selectable_format_sized (E : Env) (members : list (string * JSON))
    (format_id : JSON) :
  assoc "format_id" members = Some format_id ->
  size_field_ok (assoc "filesize" members) ->
  size_field_ok (assoc "filesize_approx" members) ->
  selectable_format E (JObj members)
  = Ok (JObj [("id", format_id); ("note", JStr (spec_note E members));
              ("ext", field "ext" JNull members)]).
Proof.
  intros Hid Hsize Happrox.
  unfold selectable_format, spec_note, byte_size, base_note, field, py_get, py_getitem.
  rewrite Hid.
  destruct (assoc "filesize" members) as [[| |n| | |]|]; try contradiction;
    destruct (assoc "filesize_approx" members) as [[| |m| | |]|]; try contradiction;
    cbn [truthy nonzero_size mbind Res_bind negb size_text];
    repeat lazymatch goal with
      | |- context [Z.eqb ?x 0%Z] =>
          let Hz := fresh "Hz" in
          destruct (Z.eqb x 0%Z) eqn:Hz;
          cbn [truthy nonzero_size mbind Res_bind negb size_text];
          repeat (rewrite Hz; cbn [truthy nonzero_size mbind Res_bind negb size_text])
      end;
    rewrite ?append_nil_r; reflexivity.
Qed.


Lemma assoc_insert_ne {A} (k key : string) (v : A) (before after : list (string * A)) :
  k <> key -> assoc k (before ++ (key, v) :: after) = assoc k (before ++ after).
Proof.
  intros Hne. rewrite !assoc_app. simpl.
  destruct (String.eqb_spec k key) as [-> | _]; [congruence | reflexivity].
Qed.

Lemma assoc_insert_eq {A} (key : string) (v : A) (before after : list (string * A)) :
  assoc key (before ++ after) = None ->
  assoc key (before ++ (key, v) :: after) = Some v.
Proof.
  rewrite !assoc_app. destruct (assoc key before); [discriminate |].
  intros _. simpl. rewrite String.eqb_refl. reflexivity.
Qed.

(** The hundredths are the nearest ones: the size in megabytes is rounded
    to two decimals. *)
Lemma hundredths_nearest (n : Z) :
  2 * Z.abs (100 * n - hundredths n * MiB) <= MiB.
Proof.
  unfold hundredths, MiB. change (1024 * 1024) with 1048576.
  pose proof (Z.div_mod (100 * n) 1048576 ltac:(lia)) as Hdm.
  pose proof (Z.mod_pos_bound (100 * n) 1048576 ltac:(lia)) as Hr.
  set (q := (100 * n) / 1048576) in *. set (r := (100 * n) mod 1048576) in *.
  destruct (Z.ltb_spec 1048576 (2 * r)); cbn [orb].
  - lia.
  - destruct (Z.eqb_spec 1048576 (2 * r)); cbn [andb]; [destruct (Z.odd q) |]; lia.
Qed.

(** The text shows one or two decimals. *)
Lemma decimals_below_100 (k : nat) :
  (k < 100)%nat ->
  (1 <= String.length (decimals (Z.of_nat k)) <= 2)%nat.
Proof.
  intros Hk.
  do 100 (destruct k as [|k]; [vm_compute; lia |]). lia.
Qed.

Lemma decimals_short (h : Z) : (1 <= String.length (decimals h) <= 2)%nat.
Proof.
  pose proof (Z.mod_pos_bound h 100 ltac:(lia)) as Hd.
  assert (Hsame : decimals h = decimals (Z.of_nat (Z.to_nat (h mod 100)))).
  { unfold decimals. rewrite Z2Nat.id by lia. rewrite Z.mod_mod by lia. reflexivity. }
  rewrite Hsame. apply decimals_below_100. lia.
Qed.

Lemma nonzero_size_nonzero (o : option JSON) (n : Z) : nonzero_size o = Some n -> n <> 0.
Proof.
  destruct o as [[| |m| | |]|]; try discriminate. simpl.
  destruct (Z.eqb_spec m 0); [discriminate | congruence].
Qed.

Lemma byte_size_nonzero (members : list (string * JSON)) (n : Z) :
  byte_size members = Some n -> n <> 0.
Proof.
  unfold byte_size.
  destruct (nonzero_size (assoc "filesize" members)) as [m|] eqn:Hreported.
  - intros [= <-]. exact (nonzero_size_nonzero _ _ Hreported).
  - apply nonzero_size_nonzero.
Qed.

(** *** The size text reads back as the rounded size *)

Lemma append_cons (c : ascii) (s t : string) : String c s +:+ t = String c (s +:+ t).
Proof. reflexivity. Qed.

Lemma append_nil_l (s : string) : EmptyString +:+ s = s.
Proof. reflexivity. Qed.

Lemma split_at_point_uint (d : Decimal.uint) (f : string) :
  split_at_point (NilEmpty.string_of_uint d +:+ String "." f)
  = Some (NilEmpty.string_of_uint d, f).
Proof.
  induction d as [|d IH|d IH|d IH|d IH|d IH|d IH|d IH|d IH|d IH|d IH];
    cbn [NilEmpty.string_of_uint]; rewrite ?append_cons, ?append_nil_l;
    cbn [split_at_point]; try reflexivity.
  all: match goal with
       | |- context [Ascii.eqb ?a ?b] =>
           change (Ascii.eqb a b) with false; cbv iota
       end; rewrite IH; reflexivity.
Qed.

Lemma digits_value_uint (d : Decimal.uint) (acc : positive) :
  digits_value (Z.pos acc) (NilEmpty.string_of_uint d)
  = Some (Z.pos (Pos.of_uint_acc d acc)).
Proof.
  revert acc.
  induction d as [|d IH|d IH|d IH|d IH|d IH|d IH|d IH|d IH|d IH|d IH]; intros acc;
    cbn [NilEmpty.string_of_uint digits_value Pos.of_uint_acc]; [reflexivity | ..].
  all: match goal with
       | |- context [digit_of ?c] =>
           let v := eval vm_compute in (digit_of c) in change (digit_of c) with v
       end; cbv iota.
  all: match goal with
       | |- digits_value ?a _ = Some (Z.pos (Pos.of_uint_acc _ ?b)) =>
           replace a with (Z.pos b) by lia
       end; apply IH.
Qed.

Lemma digits_value_of_uint (d : Decimal.uint) :
  digits_value 0 (NilEmpty.string_of_uint d) = Some (Z.of_N (Pos.of_uint d)).
Proof.
  induction d as [|d IH|d IH|d IH|d IH|d IH|d IH|d IH|d IH|d IH|d IH];
    cbn [NilEmpty.string_of_uint digits_value Pos.of_uint]; [reflexivity | ..].
  all: match goal with
       | |- context [digit_of ?c] =>
           let v := eval vm_compute in (digit_of c) in change (digit_of c) with v
       end; cbv iota.
  - exact IH.
  - apply (digits_value_uint d 1).
  - apply (digits_value_uint d 2).
  - apply (digits_value_uint d 3).
  - apply (digits_value_uint d 4).
  - apply (digits_value_uint d 5).
  - apply (digits_value_uint d 6).
  - apply (digits_value_uint d 7).
  - apply (digits_value_uint d 8).
  - apply (digits_value_uint d 9).
Qed.

Lemma unorm_zero (d d' : Decimal.uint) :
  Decimal.unorm d = Decimal.D0 d' -> d' = Decimal.Nil.
Proof.
  induction d as [|d IH|d IH|d IH|d IH|d IH|d IH|d IH|d IH|d IH|d IH];
    cbn [Decimal.unorm]; try discriminate.
  - intros [= <-]. reflexivity.
  - exact IH.
Qed.

Lemma to_uint_normal (p : positive) : Decimal.unorm (Pos.to_uint p) = Pos.to_uint p.
Proof.
  rewrite <- (DecimalPos.Unsigned.to_of (Pos.to_uint p)).
  rewrite DecimalPos.Unsigned.of_to. reflexivity.
Qed.

(** [str] of a natural number is a numeral that [read_whole] reads as that
    number. *)
Lemma str_int_whole (k : Z) :
  0 <= k ->
  exists d, str_int k = NilEmpty.string_of_uint d /\ read_whole (str_int k) = Some k.
Proof.
  intros Hk.
  destruct k as [|p|p];
    [exists (Decimal.D0 Decimal.Nil); split; reflexivity | | lia].
  exists (Pos.to_uint p).
  assert (Hstr : str_int (Z.pos p) = NilEmpty.string_of_uint (Pos.to_uint p)).
  { unfold str_int. cbn [Z.to_int NilZero.string_of_int]. unfold NilZero.string_of_uint.
    pose proof (Unsigned.to_uint_nonnil p) as Hnonnil.
    destruct (Pos.to_uint p); [congruence | reflexivity ..]. }
  split; [exact Hstr |].
  rewrite Hstr.
  pose proof (digits_value_of_uint (Pos.to_uint p)) as Hvalue.
  rewrite DecimalPos.Unsigned.of_to in Hvalue.
  pose proof (to_uint_normal p) as Hnormal.
  pose proof (Unsigned.to_uint_nonnil p) as Hnonnil.
  pose proof (Unsigned.to_uint_nonzero p) as Hnonzero.
  destruct (Pos.to_uint p) as [|d|d|d|d|d|d|d|d|d|d]; [congruence | | exact Hvalue ..].
  apply unorm_zero in Hnormal. congruence.
Qed.

Lemma read_decimals_below_100 (k : nat) :
  (k < 100)%nat -> read_decimals (decimals (Z.of_nat k)) = Some (Z.of_nat k).
Proof.
  intros Hk.
  do 100 (destruct k as [|k]; [vm_compute; reflexivity |]). lia.
Qed.

Lemma read_decimals_decimals (h : Z) : read_decimals (decimals h) = Some (h mod 100).
Proof.
  pose proof (Z.mod_pos_bound h 100 ltac:(lia)) as Hd.
  assert (Hsame : decimals h = decimals (Z.of_nat (Z.to_nat (h mod 100)))).
  { unfold decimals. rewrite Z2Nat.id by lia. rewrite Z.mod_mod by lia. reflexivity. }
  rewrite Hsame, read_decimals_below_100 by lia.
  rewrite Z2Nat.id by lia. reflexivity.
Qed.

(** The size text of a byte count reads back as its hundredths. *)
Lemma read_mb_text (n : Z) : 0 <= n -> read_hundredths (mb_text n) = Some (hundredths n).
Proof.
  intros Hn. unfold mb_text. rewrite Z.abs_eq by exact Hn.
  destruct (Z.ltb_spec n 0) as [Hneg|_]; [lia |]. rewrite append_nil_l.
  assert (Hh : 0 <= hundredths n).
  { unfold hundredths, MiB. change (1024 * 1024) with 1048576.
    pose proof (Z.div_pos (100 * n) 1048576 ltac:(lia) ltac:(lia)).
    destruct (_ || _); lia. }
  destruct (str_int_whole (hundredths n / 100)) as (d & Hd & Hwhole);
    [apply Z.div_pos; lia |].
  unfold read_hundredths.
  change ("." +:+ decimals (hundredths n)) with (String "." (decimals (hundredths n))).
  rewrite Hd at 1. rewrite split_at_point_uint. rewrite <- Hd.
  rewrite Hwhole, read_decimals_decimals.
  f_equal. pose proof (Z.div_mod (hundredths n) 100 ltac:(lia)). lia.
Qed.

(** Of two hundredths that are equally near, [hundredths] is the even one. *)
Lemma hundredths_tie_even (n : Z) :
  2 * Z.abs (100 * n - hundredths n * MiB) = MiB -> Z.even (hundredths n) = true.
Proof.
  unfold hundredths, MiB. change (1024 * 1024) with 1048576.
  pose proof (Z.div_mod (100 * n) 1048576 ltac:(lia)) as Hdm.
  pose proof (Z.mod_pos_bound (100 * n) 1048576 ltac:(lia)) as Hr.
  set (q := (100 * n) / 1048576) in *. set (r := (100 * n) mod 1048576) in *.
  destruct (Z.ltb_spec 1048576 (2 * r)); cbn [orb]; [lia |].
  destruct (Z.eqb_spec 1048576 (2 * r)); cbn [andb]; [| lia].
  intros _. destruct (Z.odd q) eqn:Hodd.
  - rewrite Z.add_1_r, Z.even_succ. exact Hodd.
  - rewrite <- Z.negb_odd, Hodd. reflexivity.
Qed.

Lemma mb_text_shows_megabytes (n : Z) : 0 <= n -> shows_megabytes n (mb_text n).
Proof.
  intros Hn. exists (hundredths n). split; [| split].
  - exact (read_mb_text n Hn).
  - apply hundredths_nearest.
  - apply hundredths_tie_even.
Qed.

(** The numerals that do not count: no decimal, a leading zero, a closing
    zero after another decimal, three decimals, a sign. *)
Example read_hundredths_examples :
  map read_hundredths ["12.3"; "0.13"; "3.0"; "12"; "012.3"; "12.30"; "12.345"; ".5"; "-1.0"]
  = [Some 1230; Some 13; Some 300; None; None; None; None; None; None].
Proof. vm_compute. reflexivity. Qed.

Lemma byte_count_field_ok (o : option JSON) : byte_count_or_none o -> size_field_ok o.
Proof. destruct o as [[| |n| | |]|]; simpl; tauto. Qed.

Lemma nonzero_size_in_range (o : option JSON) (n : Z) :
  byte_count_or_none o -> nonzero_size o = Some n -> 0 < n < 2 ^ 53.
Proof.
  destruct o as [[| |m| | |]|]; try discriminate. simpl.
  intros Hm. destruct (Z.eqb_spec m 0); [discriminate |]. intros [= <-]. lia.
Qed.

Lemma byte_size_in_range (members : list (string * JSON)) (n : Z) :
  byte_count_or_none (assoc "filesize" members) ->
  byte_count_or_none (assoc "filesize_approx" members) ->
  byte_size members = Some n -> 0 < n < 2 ^ 53.
Proof.
  intros Hsize Happrox. unfold byte_size.
  destruct (nonzero_size (assoc "filesize" members)) as [m|] eqn:Hreported.
  - intros [= <-]. exact (nonzero_size_in_range _ _ Hsize Hreported).
  - apply nonzero_size_in_range. exact Happrox.
Qed.

(** C6 as stated fails when a size field is there and holds 0: the note
    carries no size estimate, and it is the note of the entry without the
    field. *)
Lemma zero_size_note_has_no_suffix :
  note_of (selectable_format
             (scenario None None TimedOut [] Unreachable)
             (JObj [("format_id", JStr "18"); ("ext", JStr "mp4");
                    ("resolution", JStr "640x360"); ("filesize", JNum 0)]))
    = Some "640x360 (mp4)"
  /\ note_of (selectable_format
             (scenario None None TimedOut [] Unreachable)
             (JObj [("format_id", JStr "18"); ("ext", JStr "mp4");
                    ("resolution", JStr "640x360")]))
    = Some "640x360 (mp4)".
Proof. split; reflexivity. Qed.

(** C6, amended: for an entry of the manifest (an object with a
    [format_id], whose size fields are absent, null or integers from 0 up to
    [2^53]) the note is the resolution, or "audio only" when the entry has
    none, and the extension in parentheses; when the reported size, or else
    the approximate one, is there and not zero, the note goes on with the
    size suffix, whose numeral shows that size in megabytes rounded to two
    decimals.  An entry whose sizes are missing, null or zero has no
    suffix; and putting a size that is not zero into an entry that has none
    lengthens its note by the suffix and changes nothing else. *)
Theorem note_of_format (E : Env) (members : list (string * JSON)) (format_id : JSON) :
  assoc "format_id" members = Some format_id ->
  byte_count_or_none (assoc "filesize" members) ->
  byte_count_or_none (assoc "filesize_approx" members) ->
  (byte_size members = None ->
     note_of (selectable_format E (JObj members)) = Some (base_note E members))
  /\ (forall n, byte_size members = Some n ->
        0 < n < 2 ^ 53
        /\ exists mb,
             note_of (selectable_format E (JObj members))
             = Some (base_note E members +:+ " - 約" +:+ mb +:+ "MB")
             /\ shows_megabytes n mb)
  /\ (forall before after key n,
        members = before ++ after ->
        assoc "filesize" members = None ->
        assoc "filesize_approx" members = None ->
        key = "filesize" \/ key = "filesize_approx" ->
        0 < n < 2 ^ 53 ->
        exists note mb,
          note_of (selectable_format E (JObj members)) = Some note
          /\ note_of (selectable_format E (JObj (before ++ (key, JNum n) :: after)))
             = Some (note +:+ " - 約" +:+ mb +:+ "MB")
          /\ shows_megabytes n mb).
Proof.
  intros Hid Hsize Happrox.
  pose proof (byte_count_field_ok _ Hsize) as Hsize'.
  pose proof (byte_count_field_ok _ Happrox) as Happrox'.
  split; [| split].
  - intros Hnone.
    rewrite (selectable_format_sized E members format_id Hid Hsize' Happrox').
    unfold note_of, spec_note. cbn [assoc String.eqb Ascii.eqb Bool.eqb].
    rewrite Hnone, append_nil_r. reflexivity.
  - intros n Hn.
    pose proof (byte_size_in_range _ _ Hsize Happrox Hn) as Hrange.
    split; [exact Hrange |].
    exists (mb_text n). split.
    + rewrite (selectable_format_sized E members format_id Hid Hsize' Happrox').
      unfold note_of, spec_note. cbn [assoc String.eqb Ascii.eqb Bool.eqb].
      rewrite Hn. reflexivity.
    + apply mb_text_shows_megabytes. lia.
  - intros before after key n -> Hnone Hnone' Hkey Hn.
    exists (base_note E (before ++ after)), (mb_text n). split; [| split].
    + rewrite (selectable_format_sized E _ format_id Hid Hsize' Happrox').
      unfold note_of, spec_note, byte_size. cbn [assoc String.eqb Ascii.eqb Bool.eqb].
      rewrite Hnone, Hnone'. cbn [nonzero_size]. rewrite append_nil_r. reflexivity.
    + assert (Hn0 : (n =? 0) = false) by (apply Z.eqb_neq; lia).
      assert (Hbase : base_note E (before ++ (key, JNum n) :: after)
                      = base_note E (before ++ after)).
      { unfold base_note, field.
        rewrite !assoc_insert_ne by (destruct Hkey as [-> | ->]; discriminate).
        reflexivity. }
      assert (Hsized : byte_size (before ++ (key, JNum n) :: after) = Some n).
      { unfold byte_size. destruct Hkey as [-> | ->].
        - rewrite (assoc_insert_eq _ _ _ _ Hnone). cbn [nonzero_size].
          rewrite Hn0. reflexivity.
        - rewrite (assoc_insert_ne "filesize") by discriminate.
          rewrite Hnone. cbn [nonzero_size].
          rewrite (assoc_insert_eq _ _ _ _ Hnone'). cbn [nonzero_size].
          rewrite Hn0. reflexivity. }
      rewrite (selectable_format_sized E _ format_id).
      * unfold note_of, spec_note. cbn [assoc String.eqb Ascii.eqb Bool.eqb].
        rewrite Hsized, Hbase. reflexivity.
      * rewrite assoc_insert_ne by (destruct Hkey as [-> | ->]; discriminate).
        exact Hid.
      * destruct Hkey as [-> | ->].
        -- rewrite (assoc_insert_eq _ _ _ _ Hnone). exact I.
        -- rewrite assoc_insert_ne by discriminate. rewrite Hnone. exact I.
      * destruct Hkey as [-> | ->].
        -- rewrite assoc_insert_ne by discriminate. rewrite Hnone'. exact I.
        -- rewrite (assoc_insert_eq _ _ _ _ Hnone'). exact I.
    + apply mb_text_shows_megabytes. lia.
Qed.

Lemma note_of_format_witness :
  note_of (selectable_format (scenario None None TimedOut [] Unreachable)
             (JObj unsized_entry))
    = Some "1920x1080 (mp4)"
  /\ (exists mb,
        note_of (selectable_format (scenario None None TimedOut [] Unreachable)
                   (JObj (unsized_entry ++ [("filesize_approx", JNum 12897484)])))
        = Some ("1920x1080 (mp4)" +:+ " - 約" +:+ mb +:+ "MB")
        /\ shows_megabytes 12897484 mb)
  /\ (exists note mb,
        note_of (selectable_format (scenario None None TimedOut [] Unreachable)
                   (JObj unsized_entry)) = Some note
        /\ note_of (selectable_format (scenario None None TimedOut [] Unreachable)
                      (JObj (("filesize", JNum 131072) :: unsized_entry)))
           = Some (note +:+ " - 約" +:+ mb +:+ "MB")
        /\ shows_megabytes 131072 mb).
Proof.
  split; [| split].
  - destruct (note_of_format (scenario None None TimedOut [] Unreachable)
                unsized_entry (JStr "137") eq_refl I I) as (Hnone & _ & _).
    exact (Hnone eq_refl).
  - destruct (note_of_format (scenario None None TimedOut [] Unreachable)
                (unsized_entry ++ [("filesize_approx", JNum 12897484)])
                (JStr "137") eq_refl I) as (_ & Hsized & _).
    + simpl. lia.
    + destruct (Hsized 12897484 eq_refl) as (_ & mb & Hnote & Hshown).
      exists mb. split; [exact Hnote | exact Hshown].
  - destruct (note_of_format (scenario None None TimedOut [] Unreachable)
                unsized_entry (JStr "137") eq_refl I I) as (_ & _ & Hinsert).
    apply (Hinsert [] unsized_entry "filesize" 131072);
      [reflexivity | reflexivity | reflexivity | left; reflexivity | lia].
Defined.

Example note_with_reported_size :
  note_of (selectable_format (scenario None None TimedOut [] Unreachable)
             (JObj (unsized_entry ++ [("filesize", JNum 12897484)])))
  = Some "1920x1080 (mp4) - 約12.3MB".
Proof. vm_compute. reflexivity. Qed.

Example note_with_approximate_size :
  note_of (selectable_format (scenario None None TimedOut [] Unreachable)
             (JObj [("format_id", JStr "140"); ("ext", JStr "m4a");
                    ("filesize", JNull); ("filesize_approx", JNum 3355443)]))
  = Some "audio only (m4a) - 約3.2MB".
Proof. vm_compute. reflexivity. Qed.



(** ** [/download]: the workspace and the relay *)



Lemma within_refl (dir : string) : within dir dir = true.
Proof. unfold within. rewrite String.eqb_refl. reflexivity. Qed.

(** *** Nothing but [with_TemporaryDirectory] makes a directory *)

Lemma quiet_lift {A} (r : Res A) : quiet (lift r).
Proof. intros fs. constructor. Qed.

Lemma quiet_mret {A} (a : A) : quiet (mret a).
Proof. intros fs. constructor. Qed.

Lemma quiet_emit (e : Event) : is_mkdtemp e = false -> quiet (emit e).
Proof. intros He fs. repeat constructor. exact He. Qed.

Lemma quiet_bind {A B} (m : M A) (k : A -> M B) :
  quiet m -> (forall a, quiet (k a)) -> quiet (m ≫= k).
Proof.
  intros Hm Hk fs. specialize (Hm fs).
  unfold mbind, M_bind, events_of in *.
  destruct (m fs) as [[[a|e] fs1] ev1]; simpl in *; [| exact Hm].
  specialize (Hk a fs1). unfold events_of in Hk.
  destruct (k a fs1) as [[r fs2] ev2]. simpl in *.
  apply Forall_app. split; assumption.
Qed.


Lemma quiet_logger_info (message : string) : quiet (logger_info message).
Proof. apply quiet_emit. reflexivity. Qed.

Lemma quiet_create_error_response (message : string) (code : Z) :
  quiet (create_error_response message code).
Proof.
  unfold create_error_response, logger_error.
  apply quiet_bind; [apply quiet_emit; reflexivity | intros; apply quiet_mret].
Qed.

Lemma quiet_subprocess_run (E : Env) (cmd : Cmd) (timeout : Z) :
  quiet (subprocess_run E cmd timeout).
Proof.
  intros fs. unfold subprocess_run, events_of.
  destruct (run_process E cmd timeout fs) as [outcome fs1]. repeat constructor.
Qed.

Lemma quiet_os_listdir (path : string) : quiet (os_listdir path).
Proof.
  intros fs. unfold os_listdir, events_of.
  destruct (fs !! path) as [[entries|]|]; constructor.
Qed.

Lemma quiet_open_rb (path : string) : quiet (open_rb path).
Proof.
  intros fs. unfold open_rb, events_of.
  destruct (fs !! path) as [[entries|]|]; constructor.
Qed.

Lemma quiet_requests_post (E : Env) (url file_name api_key : string) (timeout : Z) :
  quiet (requests_post E url file_name api_key timeout).
Proof. intros fs. repeat constructor. Qed.

Create HintDb quiet.
#[local] Hint Resolve quiet_lift quiet_mret quiet_logger_info
  quiet_create_error_response quiet_subprocess_run quiet_os_listdir
  quiet_open_rb quiet_requests_post : quiet.





(** *** The workspace is gone when the block is left *)







(** The five outcomes, run: the workspace is gone after each. *)
Example workspace_is_gone_in_each_outcome :
  let request := youtu_request in
  let upload := Some "https://storage.example/upload" in
  let key := Some "s3cret" in
  let done := Exited 0 EmptyString EmptyString in
  Forall (fun E => fs_of (download_video E request ∅) !! scenario_tmp = None
                   /\ In (ERmtree scenario_tmp) (events_of (download_video E request ∅)))
    [ scenario upload key TimedOut [] Unreachable;
      scenario upload key (Exited 1 EmptyString "ERROR") [] Unreachable;
      scenario upload key done [] Unreachable;
      scenario upload key done ["Title-[18].mp4"] Unreachable;
      scenario upload key done ["Title-[18].mp4"] (Responded 503 "busy");
      scenario upload key done ["Title-[18].mp4"] (Responded 201 upload_receipt_text) ].
Proof.
  cbv zeta.
  repeat (apply List.Forall_cons;
          [split; [vm_compute; reflexivity | vm_compute; tauto] |]).
  apply List.Forall_nil.
Qed.

(** The scenario of the specification: the endpoint's 201 and its receipt
    come back, the file was in the workspace while the upload ran. *)
Example relay_scenario_run :
  result_of (download_video relay_scenario youtu_request ∅)
    = Ok (jsonify (JObj [("id", JStr "xyz")]) 201)
  /\ posted (events_of (download_video relay_scenario youtu_request ∅))
    = [EPost "https://storage.example/upload" "Title-[18].mp4" "s3cret" 600]
  /\ spawned (events_of (download_video relay_scenario youtu_request ∅))
    = [ESpawn (download_command default_format (quoted "https://youtu.be/abc123")
                                scenario_tmp) 1800].
Proof. vm_compute. repeat split. Qed.

(** *** What the relay does with the answer of the endpoint *)

Lemma relay_artifact_answered (E : Env) (file_name file_path : string) (fs : FS)
    (status : Z) (text : string) :
  fs !! file_path = Some RegularFile ->
  upload_endpoint E (configured (CONOHA_UPLOAD_URL E)) file_name
                  (configured (CONOHA_API_KEY E)) = Responded status text ->
  relay_artifact E file_name file_path fs
  = let started :=
      [ELog INFO ("ConoHaサーバーへのアップロード開始: " +:+ file_name);
       EPost (configured (CONOHA_UPLOAD_URL E)) file_name
             (configured (CONOHA_API_KEY E)) 600] in
    let failed e :=
      "ConoHaサーバーへのアップロードに失敗しました: " +:+ exn_str E e in
    if (400 <=? status) && (status <? 600)
    then (Ok (jsonify (error_envelope (failed (HTTPError status))) 500), fs,
          started ++ [ELog ERROR (failed (HTTPError status))])
    else match json_loads E text with
         | Some uploaded =>
             (Ok (jsonify uploaded status), fs, started ++ [ELog INFO "アップロード成功"])
         | None =>
             (Ok (jsonify (error_envelope (failed JSONDecodeError)) 500), fs,
              started ++ [ELog INFO "アップロード成功";
                          ELog ERROR (failed JSONDecodeError)])
         end.
Proof.
  intros Hfile Hanswer. unfold relay_artifact. run_monad.
  unfold open_rb. rewrite Hfile. run_monad.
  unfold requests_post. rewrite Hanswer. run_monad.
  unfold raise_for_status. cbn [upload_status upload_text].
  destruct ((400 <=? status) && (status <? 600)); [reflexivity |].
  run_monad. unfold loads. destruct (json_loads E text); reflexivity.
Qed.

(** *** A call that gets as far as running the downloader *)

Section Downloaded.

Variables (E : Env) (request : Request) (fs fs1 : FS) (data : JSON).
Variables (url format_id temp_dir out err : string).

(** The configuration is complete, the body names a URL and a format, the
    workspace could be made, and the downloader exited with status 0,
    leaving the file system as [fs1]. *)
Hypothesis Hconfigured : is_configured E.
Hypothesis Hjson : get_json request = Ok data.
Hypothesis Hurl : py_getitem data "url" = Ok (JStr url).
Hypothesis Hformat : py_get data "format_id" (JStr default_format) = Ok (JStr format_id).
Hypothesis Hmkdtemp : mkdtemp E fs = Some temp_dir.
Hypothesis Htool :
  run_process E (download_command format_id (final_url_of (strip url)) temp_dir) 1800
              (<[temp_dir := Dir []]> fs)
  = (Exited 0 out err, fs1).

Abbreviation workspace_run :=
  (run_in_workspace E format_id (final_url_of (strip url)) temp_dir fs).

Lemma download_video_in_workspace :
  download_video E request fs =
    (result_of workspace_run, rmtree temp_dir (fs_of workspace_run),
     ELog INFO ("ダウンロードリクエスト受信: " +:+ strip url +:+ " (Format: "
                +:+ format_id +:+ ")")
     :: EMkdtemp temp_dir :: events_of workspace_run ++ [ERmtree temp_dir]).
Proof.
  pose proof Hformat as Hfmt. unfold default_format in Hfmt.
  destruct Hconfigured as [Hupload Hkey].
  unfold download_video. rewrite Hupload, Hkey.
  change (negb true || negb true) with false. cbv iota.
  rewrite Hjson, bind_lift_Ok, (url_missing_has_url _ _ Hurl), bind_lift_Ok.
  cbv iota. rewrite Hurl, bind_lift_Ok. unfold py_strip. rewrite bind_lift_Ok.
  rewrite Hfmt, bind_lift_Ok. unfold logger_info. rewrite bind_emit. cbv zeta.
  unfold with_TemporaryDirectory. rewrite Hmkdtemp.
  unfold run_in_workspace, result_of, fs_of, events_of.
  destruct (in_workspace E (JStr format_id) (final_url_of (strip url)) temp_dir
              (<[temp_dir := Dir []]> fs)) as [[r fs2] ev]. reflexivity.
Qed.

Lemma locate_artifact_lists :
  locate_artifact E (JStr format_id) (final_url_of (strip url)) temp_dir
                  (<[temp_dir := Dir []]> fs)
  = match fs1 !! temp_dir with
    | Some (Dir []) =>
        (Ok (inl (jsonify (error_envelope
           "yt-dlpによるダウンロードに失敗しました。ファイルが生成されませんでした。") 500)),
         fs1,
         [ESpawn (download_command format_id (final_url_of (strip url)) temp_dir) 1800;
          ELog ERROR
            "yt-dlpによるダウンロードに失敗しました。ファイルが生成されませんでした。"])
    | Some (Dir (file_name :: _)) =>
        (Ok (inr (file_name, os_path_join temp_dir file_name)), fs1,
         [ESpawn (download_command format_id (final_url_of (strip url)) temp_dir) 1800;
          ELog INFO ("ダウンロード成功: " +:+ file_name)])
    | Some RegularFile =>
        (Ok (inl (jsonify (error_envelope
           ("yt-dlpの実行に失敗しました: " +:+ exn_str E (OSError "NotADirectoryError"))) 500)),
         fs1,
         [ESpawn (download_command format_id (final_url_of (strip url)) temp_dir) 1800;
          ELog ERROR
            ("yt-dlpの実行に失敗しました: " +:+ exn_str E (OSError "NotADirectoryError"))])
    | None =>
        (Ok (inl (jsonify (error_envelope
           ("yt-dlpの実行に失敗しました: " +:+ exn_str E (OSError "FileNotFoundError"))) 500)),
         fs1,
         [ESpawn (download_command format_id (final_url_of (strip url)) temp_dir) 1800;
          ELog ERROR
            ("yt-dlpの実行に失敗しました: " +:+ exn_str E (OSError "FileNotFoundError"))])
    end.
Proof.
  unfold locate_artifact. run_monad.
  change (py_join_space _) with
    (Ok (join_space
           ["yt-dlp"; "--no-playlist"; "-f"; format_id; "-o";
            dquote +:+ os_path_join temp_dir "%(title)s-[%(format_id)s].%(ext)s"
            +:+ dquote;
            final_url_of (strip url)])).
  cbv iota.
  fold (download_command format_id (final_url_of (strip url)) temp_dir).
  rewrite (subprocess_run_exit0 _ _ _ _ _ _ _ Htool). run_monad.
  unfold os_listdir.
  destruct (fs1 !! temp_dir) as [[[|file_name others]|]|]; reflexivity.
Qed.

(** C5: when the downloader exits with status 0 and the listing of the
    workspace is empty, [/download] answers with the 500 error envelope that
    says no file was produced, and no upload is attempted. *)
Theorem no_artifact_is_an_error :
  fs1 !! temp_dir = Some (Dir []) ->
  result_of (download_video E request fs)
    = Ok (jsonify (error_envelope
            "yt-dlpによるダウンロードに失敗しました。ファイルが生成されませんでした。") 500)
  /\ posted (events_of (download_video E request fs)) = [].
Proof.
  intros Hempty. rewrite download_video_in_workspace.
  unfold run_in_workspace, in_workspace. run_monad.
  rewrite locate_artifact_lists, Hempty. split; reflexivity.
Qed.

(** C4, amended: when the downloader left a file and the endpoint answered
    the upload, a 4xx or 5xx status of the endpoint makes [/download] answer
    with the 500 error envelope of a failed upload; with any other status
    and a JSON body, the decoded body and the status of the endpoint are the
    response; a body that is not JSON gives the 500 error envelope too. *)
Theorem relay_of_the_endpoint_answer (file_name : string) (others : list string)
    (status : Z) (text : string) :
  fs1 !! temp_dir = Some (Dir (file_name :: others)) ->
  fs1 !! os_path_join temp_dir file_name = Some RegularFile ->
  upload_endpoint E (configured (CONOHA_UPLOAD_URL E)) file_name
                  (configured (CONOHA_API_KEY E)) = Responded status text ->
  (400 <= status < 600 ->
     result_of (download_video E request fs)
     = Ok (jsonify (error_envelope
             ("ConoHaサーバーへのアップロードに失敗しました: "
              +:+ exn_str E (HTTPError status))) 500))
  /\ (~ 400 <= status < 600 ->
      forall uploaded, json_loads E text = Some uploaded ->
      result_of (download_video E request fs) = Ok (jsonify uploaded status))
  /\ (~ 400 <= status < 600 ->
      json_loads E text = None ->
      result_of (download_video E request fs)
      = Ok (jsonify (error_envelope
              ("ConoHaサーバーへのアップロードに失敗しました: "
               +:+ exn_str E JSONDecodeError)) 500)).
Proof.
  intros Hlisting Hfile Hanswer.
  assert (Hrun : result_of (download_video E request fs)
                 = result_of (relay_artifact E file_name
                                (os_path_join temp_dir file_name) fs1)).
  { rewrite download_video_in_workspace.
    unfold run_in_workspace, in_workspace. run_monad.
    rewrite locate_artifact_lists, Hlisting.
    destruct (relay_artifact E file_name (os_path_join temp_dir file_name) fs1)
      as [[r fs2] ev]. reflexivity. }
  rewrite Hrun, (relay_artifact_answered _ _ _ _ _ _ Hfile Hanswer). cbv zeta.
  repeat split.
  - intros Hfailure.
    replace ((400 <=? status) && (status <? 600)) with true; [reflexivity |].
    symmetry. apply andb_true_intro. split; [apply Z.leb_le | apply Z.ltb_lt]; lia.
  - intros Hpassed uploaded Hloads.
    replace ((400 <=? status) && (status <? 600)) with false.
    + rewrite Hloads. reflexivity.
    + symmetry. apply andb_false_iff.
      destruct (Z.leb_spec 400 status); [right | left; reflexivity].
      apply Z.ltb_ge. lia.
  - intros Hpassed Hloads.
    replace ((400 <=? status) && (status <? 600)) with false.
    + rewrite Hloads. reflexivity.
    + symmetry. apply andb_false_iff.
      destruct (Z.leb_spec 400 status); [right | left; reflexivity].
      apply Z.ltb_ge. lia.
Qed.

End Downloaded.

Lemma no_artifact_is_an_error_witness :
  result_of (download_video no_artifact_scenario youtu_request ∅)
    = Ok (jsonify (error_envelope
            "yt-dlpによるダウンロードに失敗しました。ファイルが生成されませんでした。") 500)
  /\ posted (events_of (download_video no_artifact_scenario youtu_request ∅)) = [].
Proof.
  apply (no_artifact_is_an_error no_artifact_scenario youtu_request ∅
           (write_files scenario_tmp [] (<[scenario_tmp := Dir []]> ∅))
           (JObj [("url", JStr "https://youtu.be/abc123")])
           "https://youtu.be/abc123" default_format scenario_tmp
           EmptyString EmptyString).
  - split; reflexivity.
  - reflexivity.
  - reflexivity.
  - reflexivity.
  - reflexivity.
  - reflexivity.
  - vm_compute. reflexivity.
Defined.

(** C4 as stated fails on both sides: an answer with a success status
    whose body is not JSON is turned into the 500 error envelope, and an
    answer with a status that is not a success but below 400 is passed
    on. *)
Lemma endpoint_answers_not_passed_as_claimed :
  result_of (download_video plain_answer_scenario youtu_request ∅)
    = Ok (jsonify (error_envelope
            ("ConoHaサーバーへのアップロードに失敗しました: "
             +:+ "Expecting value: line 1 column 1 (char 0)")) 500)
  /\ result_of (download_video multiple_choices_scenario youtu_request ∅)
    = Ok (jsonify (JObj [("id", JStr "xyz")]) 300).
Proof. split; vm_compute; reflexivity. Qed.

Lemma relay_of_the_endpoint_answer_witness :
  result_of (download_video relay_scenario youtu_request ∅)
  = Ok (jsonify (JObj [("id", JStr "xyz")]) 201).
Proof.
  destruct (relay_of_the_endpoint_answer relay_scenario youtu_request ∅
              (write_files scenario_tmp ["Title-[18].mp4"]
                           (<[scenario_tmp := Dir []]> ∅))
              (JObj [("url", JStr "https://youtu.be/abc123")])
              "https://youtu.be/abc123" default_format scenario_tmp
              EmptyString EmptyString
              (conj eq_refl eq_refl) eq_refl eq_refl eq_refl eq_refl eq_refl
              "Title-[18].mp4" [] 201 upload_receipt_text)
    as (_ & Hpassed & _).
  - vm_compute. reflexivity.
  - vm_compute. reflexivity.
  - reflexivity.
  - apply Hpassed; [lia | reflexivity].
Defined.

(** ** The URL on the command line *)

Example youtube_url_is_quoted :
  final_url_of "https://www.youtube.com/watch?v=abc123&t=10"
    = quoted "https://www.youtube.com/watch?v=abc123&t=10"
  /\ shell_safe (final_url_of "https://www.youtube.com/watch?v=abc123&t=10") = true.
Proof. split; reflexivity. Qed.

(** [get_formats] hands its command line to the shell for every body that
    names a URL. *)
Lemma get_formats_spawns_shell (E : Env) (request : Request) (fs : FS) (data : JSON)
    (url : string) :
  get_json request = Ok data ->
  py_getitem data "url" = Ok (JStr url) ->
  In (ESpawn (probe_command (strip url)) 60) (events_of (get_formats E request fs)).
Proof.
  intros Hjson Hurl. rewrite (get_formats_probes _ _ _ _ _ Hjson Hurl). run_monad.
  unfold subprocess_run.
  destruct (run_process E (probe_command (strip url)) 60 fs) as [outcome fs1].
  destruct outcome as [rc out err | | what]; [destruct (rc =? 0)%Z | |].
  all: repeat match goal with
         | |- context [match ?x with Ok _ => _ | Raise _ => _ end] => destruct x
         end.
  all: simpl; tauto.
Qed.

(** C2, on the code: a URL of another site than YouTube reaches the shell
    as it came, so the [;] in it ends the downloader's command and starts
    another; a YouTube URL is put between double quotes, inside which the
    shell still expands [$(...)].  Both handlers build their command line
    this way and run it with [shell=True]. *)
Theorem url_reaches_the_shell_unprotected :
  (forall E fs,
     In (ESpawn (Shell "yt-dlp --dump-json --no-playlist http://example.com/v;id") 60)
        (events_of (get_formats E
           (json_request (JObj [("url", JStr "http://example.com/v;id")])) fs)))
  /\ shell_safe (final_url_of "http://example.com/v;id") = false
  /\ shell_safe (final_url_of "https://youtu.be/$(id)") = false
  /\ spawned (events_of (download_video relay_scenario
         (json_request (JObj [("url", JStr "http://example.com/v;id")])) ∅))
     = [ESpawn (download_command default_format "http://example.com/v;id"
                                 scenario_tmp) 1800].
Proof.
  split; [| split; [| split]]; [| reflexivity ..].
  intros E fs.
  exact (get_formats_spawns_shell E
           (json_request (JObj [("url", JStr "http://example.com/v;id")])) fs
           (JObj [("url", JStr "http://example.com/v;id")])
           "http://example.com/v;id" eq_refl eq_refl).
Qed.

(** * Further properties of the handlers *)

(** Unfolds a handler down to the answers of the environment. *)
Ltac run_handler :=
  cbv beta iota zeta delta
    [mbind M_bind mret M_ret lift try_except emit logger_info logger_error
     create_error_response result_of fs_of events_of fst snd
     with_TemporaryDirectory in_workspace locate_artifact relay_artifact
     subprocess_run os_listdir open_rb requests_post].

(** Cases on the innermost answer a computation waits for. *)
Ltac break_match :=
  match goal with
  | |- context [match ?x with _ => _ end] =>
      lazymatch x with
      | context [match _ with _ => _ end] => fail
      | _ => destruct x eqn:?
      end
  end.

Ltac all_runs := run_handler; repeat (break_match; run_handler).

(** ** [/download]: the pipeline *)

(** A trace that follows the pipeline holds at most one workspace, one
    child process and one upload, and fewer from a later phase on. *)
Lemma follows_at_most_once (phase : Phase) (events : list Event) :
  follows phase events = true ->
  (length (List.filter is_mkdtemp events)
   <= match phase with Idle => 1 | _ => 0 end)%nat
  /\ (length (spawned events)
      <= match phase with Idle | Workspace _ => 1 | _ => 0 end)%nat
  /\ (length (posted events)
      <= match phase with Idle | Workspace _ | Downloaded _ => 1 | _ => 0 end)%nat.
Proof.
  unfold spawned, posted. revert phase.
  induction events as [|e events IH]; intros phase Hfollows.
  - destruct phase; simpl; lia.
  - destruct e; cbn [follows] in Hfollows;
      cbn [List.filter is_mkdtemp is_spawn is_post length];
      destruct phase; try discriminate Hfollows;
      try (apply andb_prop in Hfollows as [_ Hfollows]);
      apply IH in Hfollows; cbn iota in Hfollows; lia.
Qed.

(** Every call to [download_video], whatever the request and whatever the
    outside world answers, goes through the pipeline in order and once: it
    makes at most one workspace, starts at most one child process, the
    downloader in that workspace, sends at most one upload, after the
    downloader, and a workspace it made is removed before the call
    returns, after which it only logs. *)
Theorem download_follows_the_pipeline (E : Env) (request : Request) (fs : FS) :
  follows Idle (events_of (download_video E request fs)) = true
  /\ (length (List.filter is_mkdtemp (events_of (download_video E request fs))) <= 1)%nat
  /\ (length (spawned (events_of (download_video E request fs))) <= 1)%nat
  /\ (length (posted (events_of (download_video E request fs))) <= 1)%nat.
Proof.
  assert (Hfollows : follows Idle (events_of (download_video E request fs)) = true).
  { unfold download_video. all_runs.
    all: cbn [follows app]; rewrite ?String.eqb_refl; reflexivity. }
  split; [exact Hfollows |].
  exact (follows_at_most_once Idle _ Hfollows).
Qed.

(** An upload that [download_video] sends goes to the configured endpoint
    and carries the configured secret, both set and not empty, under the
    600 s deadline. *)
Theorem upload_is_sent_as_configured (E : Env) (request : Request) (fs : FS) :
  Forall (sent_as_configured E) (events_of (download_video E request fs)).
Proof.
  unfold download_video, sent_as_configured.
  destruct (CONOHA_UPLOAD_URL E) as [upload_url|] eqn:Hurl;
    destruct (CONOHA_API_KEY E) as [api_key|] eqn:Hkey;
    cbn [truthy_opt_str configured default negb orb];
    try destruct (String.eqb_spec upload_url EmptyString);
    try destruct (String.eqb_spec api_key EmptyString);
    cbn [negb orb]; all_runs;
    cbn [app]; repeat (apply List.Forall_cons; [try exact I |]);
    try apply List.Forall_nil; rewrite ?Hurl, ?Hkey; cbn [configured default];
    repeat split; assumption || reflexivity.
Qed.



Lemma loads_Ok (E : Env) (text : string) (v : JSON) :
  loads E text = Ok v -> json_loads E text = Some v.
Proof. unfold loads. destruct (json_loads E text); congruence. Qed.

Lemma raise_for_status_Ok (response : UploadResponse) (u : unit) :
  raise_for_status response = Ok u -> ~ 400 <= upload_status response < 600.
Proof.
  unfold raise_for_status.
  destruct (Z.leb_spec 400 (upload_status response));
    destruct (Z.ltb_spec (upload_status response) 600);
    cbn [andb]; intros Hok; try discriminate Hok; lia.
Qed.

(** What [download_video] answers, when it answers, is either an error
    envelope with status 400 or 500 whose message is in the error log, or
    the answer of the upload endpoint to the one upload of the call: the
    status of the endpoint, which is then not a 4xx or 5xx one, and its
    decoded body. *)
Theorem download_answers_error_or_endpoint (E : Env) (request : Request) (fs : FS)
    (response : Response) :
  result_of (download_video E request fs) = Ok response ->
  logged_error [400; 500] (events_of (download_video E request fs)) response
  \/ exists file_name text,
       In (EPost (configured (CONOHA_UPLOAD_URL E)) file_name
                 (configured (CONOHA_API_KEY E)) 600)
          (events_of (download_video E request fs))
       /\ upload_endpoint E (configured (CONOHA_UPLOAD_URL E)) file_name
                          (configured (CONOHA_API_KEY E))
          = Responded (status_code response) text
       /\ json_loads E text = Some (body response)
       /\ ~ 400 <= status_code response < 600.
Proof.
  unfold download_video, logged_error. all_runs; intros Hanswer;
    try discriminate Hanswer; injection Hanswer as <-;
    first
      [ left; eexists; cbn [body status_code jsonify app In];
        split; [reflexivity | split; tauto]
      | right;
        match goal with
        | Hpost : upload_endpoint E _ ?name _ = Responded ?status ?text,
          Hstatus : raise_for_status _ = Ok _,
          Hloads : loads E _ = Ok _ |- _ =>
            exists name, text; cbn [body status_code jsonify app In];
            split; [tauto |];
            split; [exact Hpost |];
            split; [exact (loads_Ok _ _ _ Hloads) |];
            exact (raise_for_status_Ok _ _ Hstatus)
        end ].
Qed.

Lemma download_answers_error_or_endpoint_witness :
  logged_error [400; 500]
    (events_of (download_video relay_scenario youtu_request ∅))
    (jsonify (JObj [("id", JStr "xyz")]) 201)
  \/ exists file_name text,
       In (EPost (configured (CONOHA_UPLOAD_URL relay_scenario)) file_name
                 (configured (CONOHA_API_KEY relay_scenario)) 600)
          (events_of (download_video relay_scenario youtu_request ∅))
       /\ upload_endpoint relay_scenario (configured (CONOHA_UPLOAD_URL relay_scenario))
            file_name (configured (CONOHA_API_KEY relay_scenario))
          = Responded (status_code (jsonify (JObj [("id", JStr "xyz")]) 201)) text
       /\ json_loads relay_scenario text
          = Some (body (jsonify (JObj [("id", JStr "xyz")]) 201))
       /\ ~ 400 <= status_code (jsonify (JObj [("id", JStr "xyz")]) 201) < 600.
Proof.
  apply (download_answers_error_or_endpoint relay_scenario youtu_request ∅).
  vm_compute. reflexivity.
Defined.

(** ** [/update]: the upgrade *)

(** [update_yt_dlp] never lets an exception out.  It answers with the 401
    or 500 error envelope, the message in the error log, or with status 200
    and the output of an upgrade that exited with status 0; and the only
    thing it ever starts is pip, once at most, by argument vector and under
    the 120 s deadline. *)
Theorem update_always_answers (E : Env) (request : Request) (fs : FS) :
  (exists response,
     result_of (update_yt_dlp E request fs) = Ok response
     /\ (logged_error [401; 500] (events_of (update_yt_dlp E request fs)) response
         \/ exists out err fs1,
              run_process E
                (Argv [sys_executable E; "-m"; "pip"; "install"; "--upgrade"; "yt-dlp"])
                120 fs = (Exited 0 out err, fs1)
              /\ response = jsonify (upgrade_envelope out) 200))
  /\ (spawned (events_of (update_yt_dlp E request fs)) = []
      \/ spawned (events_of (update_yt_dlp E request fs)) = [pip_upgrade E])
  /\ forallb (fun e => is_log e || is_spawn e) (events_of (update_yt_dlp E request fs))
     = true.
Proof.
  unfold update_yt_dlp, logged_error, pip_upgrade. all_runs.
  all: split; [| split; [cbn; tauto | reflexivity]].
  all: eexists; split; [reflexivity |].
  all: first
         [ left; eexists; cbn [body status_code jsonify app In];
           split; [reflexivity | split; tauto]
         | right;
           match goal with
           | Hzero : (?rc =? 0) = true |- _ => apply Z.eqb_eq in Hzero; subst rc
           end;
           do 3 eexists; split; reflexivity ].
Qed.

(** An authorised request to [/update] starts pip exactly once.  When pip
    exits with status 0 the answer is 200 with its output; when it exits
    with another status, or does not end within the 120 s, the answer is the
    500 error envelope naming the failure. *)
Theorem authorised_update_runs_pip (E : Env) (request : Request) (fs fs1 : FS)
    (outcome : ProcOutcome) :
  authorised E request ->
  run_process E (Argv [sys_executable E; "-m"; "pip"; "install"; "--upgrade"; "yt-dlp"])
              120 fs = (outcome, fs1) ->
  spawned (events_of (update_yt_dlp E request fs)) = [pip_upgrade E]
  /\ fs_of (update_yt_dlp E request fs) = fs1
  /\ result_of (update_yt_dlp E request fs)
     = Ok match outcome with
          | Exited rc out err =>
              if (rc =? 0)%Z then jsonify (upgrade_envelope out) 200
              else jsonify (error_envelope
                     ("予期せぬエラーが発生しました: "
                      +:+ exn_str E (CalledProcessError rc
                            (Argv [sys_executable E; "-m"; "pip"; "install";
                                   "--upgrade"; "yt-dlp"])))) 500
          | TimedOut =>
              jsonify (error_envelope
                ("予期せぬエラーが発生しました: "
                 +:+ exn_str E (TimeoutExpired
                       (Argv [sys_executable E; "-m"; "pip"; "install";
                              "--upgrade"; "yt-dlp"]) 120))) 500
          | NotStarted what =>
              jsonify (error_envelope
                ("予期せぬエラーが発生しました: " +:+ exn_str E (OSError what))) 500
          end.
Proof.
  intros (key & Hheader & Hkey & Hsecret) Hrun.
  unfold update_yt_dlp, pip_upgrade. rewrite Hheader, Hsecret.
  cbn [truthy_opt_str opt_str_neq]. rewrite String.eqb_refl.
  destruct (String.eqb_spec key EmptyString) as [| _]; [contradiction |].
  cbn [negb orb]. run_handler. rewrite Hrun.
  destruct outcome as [rc out err | | what]; [destruct (rc =? 0)%Z | |];
    repeat split; reflexivity.
Qed.

Lemma authorised_update_runs_pip_witness :
  spawned (events_of (update_yt_dlp
             (scenario None (Some "s3cret") (Exited 0 "ok" EmptyString) [] Unreachable)
             (keyed_request "s3cret") ∅))
    = [pip_upgrade (scenario None (Some "s3cret") (Exited 0 "ok" EmptyString) []
                             Unreachable)]
  /\ fs_of (update_yt_dlp
             (scenario None (Some "s3cret") (Exited 0 "ok" EmptyString) [] Unreachable)
             (keyed_request "s3cret") ∅) = ∅
  /\ result_of (update_yt_dlp
             (scenario None (Some "s3cret") (Exited 0 "ok" EmptyString) [] Unreachable)
             (keyed_request "s3cret") ∅)
     = Ok (jsonify (upgrade_envelope "ok") 200).
Proof.
  apply (authorised_update_runs_pip
           (scenario None (Some "s3cret") (Exited 0 "ok" EmptyString) [] Unreachable)
           (keyed_request "s3cret") ∅ ∅ (Exited 0 "ok" EmptyString)).
  - exists "s3cret". split; [reflexivity | split; [discriminate | reflexivity]].
  - reflexivity.
Defined.

(** An empty [X-API-KEY] never authenticates, not even when the configured
    secret is the empty string: the answer is 401 and nothing is started. *)
Theorem empty_key_is_rejected (E : Env) (request : Request) (fs : FS) :
  headers_get (headers request) "X-API-KEY" = Some EmptyString ->
  result_of (update_yt_dlp E request fs)
    = Ok (jsonify (error_envelope "認証に失敗しました。") 401)
  /\ spawned (events_of (update_yt_dlp E request fs)) = [].
Proof.
  intros Hempty. rewrite update_guard_fires; [split; reflexivity |].
  rewrite Hempty. reflexivity.
Qed.

Lemma empty_key_is_rejected_witness :
  result_of (update_yt_dlp
               (scenario None (Some EmptyString) (Exited 0 "ok" EmptyString) []
                         Unreachable)
               (keyed_request EmptyString) ∅)
    = Ok (jsonify (error_envelope "認証に失敗しました。") 401)
  /\ spawned (events_of (update_yt_dlp
               (scenario None (Some EmptyString) (Exited 0 "ok" EmptyString) []
                         Unreachable)
               (keyed_request EmptyString) ∅)) = [].
Proof.
  apply empty_key_is_rejected. reflexivity.
Defined.

(** ** [/formats]: the probe *)

Lemma py_strip_Ok (v : JSON) (text : string) :
  py_strip v = Ok text -> exists url, v = JStr url /\ text = strip url.
Proof.
  destruct v as [| | |url| |]; try discriminate.
  intros [= <-]. exists url. split; reflexivity.
Qed.

(** [get_formats] starts at most one child process, and that one is the
    probe of the [url] of the request body, trimmed, under the 60 s
    deadline; it starts nothing else (no workspace, no upload).  An
    exception leaves the handler only before the probe: then nothing at all
    has happened. *)
Theorem formats_probes_at_most_once (E : Env) (request : Request) (fs : FS) :
  (spawned (events_of (get_formats E request fs)) = []
   \/ exists data url,
        get_json request = Ok data
        /\ py_getitem data "url" = Ok (JStr url)
        /\ spawned (events_of (get_formats E request fs))
           = [ESpawn (probe_command (strip url)) 60])
  /\ forallb (fun e => is_log e || is_spawn e) (events_of (get_formats E request fs))
     = true
  /\ (forall e, result_of (get_formats E request fs) = Raise e ->
               events_of (get_formats E request fs) = []
               /\ fs_of (get_formats E request fs) = fs).
Proof.
  unfold get_formats. all_runs.
  all: split; [| split; [reflexivity |]].
  all: try (intros ? Hraise; try discriminate Hraise; split; reflexivity).
  all: try (left; reflexivity).
  all: right.
  all: match goal with
       | Hstrip : py_strip _ = Ok _ |- _ =>
           apply py_strip_Ok in Hstrip; destruct Hstrip as (url & Hv & Ht)
       end.
  all: subst.
  all: do 2 eexists; split; [reflexivity | split; [eassumption | reflexivity]].
Qed.

(** What [get_formats] answers, when it answers, is either an error envelope
    with status 400 or 500 whose message is in the error log, or status 200
    with the entries of the formats that a probe with exit status 0
    printed. *)
Theorem formats_answers_error_or_listing (E : Env) (request : Request) (fs : FS)
    (response : Response) :
  result_of (get_formats E request fs) = Ok response ->
  logged_error [400; 500] (events_of (get_formats E request fs)) response
  \/ exists video_url out err fs1 video_info formats items entries,
       run_process E (probe_command video_url) 60 fs = (Exited 0 out err, fs1)
       /\ json_loads E out = Some video_info
       /\ py_get video_info "formats" (JArr []) = Ok formats
       /\ py_iter formats = Ok items
       /\ selectable_formats E items = Ok entries
       /\ response = jsonify (formats_envelope entries) 200.
Proof.
  unfold get_formats, logged_error. all_runs; intros Hanswer;
    try discriminate Hanswer; injection Hanswer as <-;
    first
      [ left; eexists; cbn [body status_code jsonify app In];
        split; [reflexivity | split; tauto]
      | right;
        match goal with
        | Hzero : (?rc =? 0) = true,
          Hloads : loads E _ = Ok _ |- _ =>
            apply Z.eqb_eq in Hzero; subst rc;
            apply loads_Ok in Hloads; cbn [stdout] in Hloads
        end;
        do 8 eexists; repeat split; eassumption ].
Qed.

Lemma formats_answers_error_or_listing_witness :
  logged_error [400; 500]
    (events_of (get_formats
       (scenario None None (Exited 0 empty_manifest_text EmptyString) [] Unreachable)
       youtu_request ∅))
    (jsonify (formats_envelope []) 200)
  \/ exists video_url out err fs1 video_info formats items entries,
       run_process
         (scenario None None (Exited 0 empty_manifest_text EmptyString) [] Unreachable)
         (probe_command video_url) 60 ∅ = (Exited 0 out err, fs1)
       /\ json_loads
            (scenario None None (Exited 0 empty_manifest_text EmptyString) []
                      Unreachable) out = Some video_info
       /\ py_get video_info "formats" (JArr []) = Ok formats
       /\ py_iter formats = Ok items
       /\ selectable_formats
            (scenario None None (Exited 0 empty_manifest_text EmptyString) []
                      Unreachable) items = Ok entries
       /\ jsonify (formats_envelope []) 200 = jsonify (formats_envelope entries) 200.
Proof.
  apply (formats_answers_error_or_listing
           (scenario None None (Exited 0 empty_manifest_text EmptyString) []
                     Unreachable) youtu_request ∅).
  reflexivity.
Defined.

(** A probe that fails makes [/formats] answer with the 500 error envelope
    naming the failure: the probe ran out of its 60 s, exited with a status
    other than 0, or printed something that is not JSON. *)
Theorem failed_probe_is_500 (E : Env) (request : Request) (fs fs1 : FS)
    (data : JSON) (url : string) (outcome : ProcOutcome) :
  get_json request = Ok data ->
  py_getitem data "url" = Ok (JStr url) ->
  run_process E (probe_command (strip url)) 60 fs = (outcome, fs1) ->
  (outcome = TimedOut ->
     result_of (get_formats E request fs)
     = Ok (jsonify (error_envelope
             ("yt-dlpの実行に失敗しました: "
              +:+ exn_str E (TimeoutExpired (probe_command (strip url)) 60))) 500))
  /\ (forall rc out err, outcome = Exited rc out err -> rc <> 0 ->
      result_of (get_formats E request fs)
      = Ok (jsonify (error_envelope
              ("yt-dlpの実行に失敗しました: "
               +:+ exn_str E (CalledProcessError rc (probe_command (strip url))))) 500))
  /\ (forall out err, outcome = Exited 0 out err -> json_loads E out = None ->
      result_of (get_formats E request fs)
      = Ok (jsonify (error_envelope
              ("yt-dlpの実行に失敗しました: " +:+ exn_str E JSONDecodeError)) 500)).
Proof.
  intros Hjson Hurl Hrun.
  rewrite (get_formats_probes _ _ _ _ _ Hjson Hurl). run_handler. rewrite Hrun.
  repeat split.
  - intros ->. reflexivity.
  - intros rc out err -> Hrc.
    destruct (Z.eqb_spec rc 0) as [| _]; [contradiction | reflexivity].
  - intros out err -> Hloads. cbn [Z.eqb stdout]. unfold loads. rewrite Hloads.
    reflexivity.
Qed.

Lemma failed_probe_is_500_witness :
  result_of (get_formats (scenario None None TimedOut [] Unreachable) youtu_request ∅)
  = Ok (jsonify (error_envelope
          ("yt-dlpの実行に失敗しました: "
           +:+ exn_str (scenario None None TimedOut [] Unreachable)
                 (TimeoutExpired (probe_command (strip "https://youtu.be/abc123")) 60)))
          500).
Proof.
  destruct (failed_probe_is_500 (scenario None None TimedOut [] Unreachable)
              youtu_request ∅ ∅ (JObj [("url", JStr "https://youtu.be/abc123")])
              "https://youtu.be/abc123" TimedOut eq_refl eq_refl eq_refl)
    as (Htimeout & _ & _).
  apply Htimeout. reflexivity.
Defined.

(** ** [/formats]: the loop over the formats *)

Lemma selectable_format_entry (E : Env) (f entry : JSON) :
  selectable_format E f = Ok entry -> entry_of f entry.
Proof.
  unfold selectable_format, py_get, py_getitem, entry_of.
  destruct f as [| | | | |members]; try discriminate.
  cbn [mbind Res_bind].
  fold (field "resolution" (JStr "audio only") members).
  fold (field "ext" JNull members). fold (field "filesize" JNull members).
  fold (field "filesize_approx" JNull members).
  intros Hentry.
  repeat (first
            [ match type of Hentry with
              | context [if ?c then _ else _] => destruct c
              end
            | match type of Hentry with
              | context [size_text ?v] => destruct (size_text v)
              end ];
          cbn [mbind Res_bind] in Hentry; try discriminate Hentry).
  all: destruct (assoc "format_id" members) as [format_id|] eqn:Hid;
    [| discriminate Hentry].
  all: cbn [mbind Res_bind] in Hentry; injection Hentry as <-.
  all: do 3 eexists; split; [reflexivity | split; [exact Hid | reflexivity]].
Qed.

(** The list [get_formats] builds has one entry for each format of the
    manifest, in the order of the manifest, each with the identifier and the
    extension of its format. *)
Theorem formats_keep_the_order (E : Env) (items entries : list JSON) :
  selectable_formats E items = Ok entries -> Forall2 entry_of items entries.
Proof.
  revert entries. induction items as [|f items IH]; intros entries Hall.
  - injection Hall as <-. constructor.
  - cbn [selectable_formats mbind Res_bind] in Hall.
    destruct (selectable_format E f) as [entry|e] eqn:Hentry; [| discriminate Hall].
    destruct (selectable_formats E items) as [rest|e]; [| discriminate Hall].
    injection Hall as <-. constructor.
    + exact (selectable_format_entry _ _ _ Hentry).
    + apply IH. reflexivity.
Qed.

Lemma formats_keep_the_order_witness :
  Forall2 entry_of
    [JObj unsized_entry;
     JObj [("format_id", JStr "140"); ("ext", JStr "m4a"); ("filesize", JNum 3355443)]]
    [JObj [("id", JStr "137"); ("note", JStr "1920x1080 (mp4)"); ("ext", JStr "mp4")];
     JObj [("id", JStr "140"); ("note", JStr ("audio only (m4a)" +:+ size_suffix 3355443));
           ("ext", JStr "m4a")]].
Proof.
  apply (formats_keep_the_order (scenario None None TimedOut [] Unreachable)).
  reflexivity.
Defined.




(** ** [/download]: failures on the way *)

(** [download_video] on a configured deployment and a body with a [url]
    string, up to the workspace. *)
Lemma download_video_enters (E : Env) (request : Request) (fs : FS) (data : JSON)
    (url : string) (format_id : JSON) (temp_dir : string) :
  is_configured E ->
  get_json request = Ok data ->
  py_getitem data "url" = Ok (JStr url) ->
  py_get data "format_id" (JStr default_format) = Ok format_id ->
  mkdtemp E fs = Some temp_dir ->
  download_video E request fs =
    (result_of (in_workspace E format_id (final_url_of (strip url)) temp_dir
                             (<[temp_dir := Dir []]> fs)),
     rmtree temp_dir
       (fs_of (in_workspace E format_id (final_url_of (strip url)) temp_dir
                            (<[temp_dir := Dir []]> fs))),
     ELog INFO ("ダウンロードリクエスト受信: " +:+ strip url +:+ " (Format: "
                +:+ py_str (repr E) format_id +:+ ")")
     :: EMkdtemp temp_dir
     :: events_of (in_workspace E format_id (final_url_of (strip url)) temp_dir
                                (<[temp_dir := Dir []]> fs))
     ++ [ERmtree temp_dir]).
Proof.
  intros [Hupload Hkey] Hjson Hurl Hformat Hmkdtemp.
  unfold default_format in Hformat.
  unfold download_video. rewrite Hupload, Hkey.
  change (negb true || negb true) with false. cbv iota.
  rewrite Hjson, bind_lift_Ok, (url_missing_has_url _ _ Hurl), bind_lift_Ok.
  cbv iota. rewrite Hurl, bind_lift_Ok. unfold py_strip. rewrite bind_lift_Ok.
  rewrite Hformat, bind_lift_Ok. unfold logger_info. rewrite bind_emit. cbv zeta.
  unfold with_TemporaryDirectory. rewrite Hmkdtemp.
  unfold result_of, fs_of, events_of.
  destruct (in_workspace E format_id (final_url_of (strip url)) temp_dir
              (<[temp_dir := Dir []]> fs)) as [[r fs2] ev]. reflexivity.
Qed.

(** A [format_id] that is not a string never reaches the shell: the
    workspace is made and removed, no child process is started, nothing is
    uploaded, and the answer is the 500 error envelope of the failed
    download. *)
Theorem format_that_is_not_a_string_is_500 (E : Env) (request : Request) (fs : FS)
    (data : JSON) (url : string) (format_id : JSON) (temp_dir : string) :
  is_configured E ->
  get_json request = Ok data ->
  py_getitem data "url" = Ok (JStr url) ->
  py_get data "format_id" (JStr default_format) = Ok format_id ->
  not_a_str format_id ->
  mkdtemp E fs = Some temp_dir ->
  result_of (download_video E request fs)
    = Ok (jsonify (error_envelope
            ("yt-dlpの実行に失敗しました: " +:+ exn_str E TypeError)) 500)
  /\ spawned (events_of (download_video E request fs)) = []
  /\ posted (events_of (download_video E request fs)) = []
  /\ fs_of (download_video E request fs) = rmtree temp_dir (<[temp_dir := Dir []]> fs).
Proof.
  intros Hconfigured Hjson Hurl Hformat Hnot Hmkdtemp.
  rewrite (download_video_enters _ _ _ _ _ _ _ Hconfigured Hjson Hurl Hformat Hmkdtemp).
  unfold in_workspace, locate_artifact. run_handler.
  destruct format_id; try contradiction; repeat split; reflexivity.
Qed.

Lemma format_that_is_not_a_string_is_500_witness :
  result_of (download_video relay_scenario
               (json_request (JObj [("url", JStr "https://youtu.be/abc123");
                                    ("format_id", JNum 18)])) ∅)
    = Ok (jsonify (error_envelope
            ("yt-dlpの実行に失敗しました: " +:+ exn_str relay_scenario TypeError)) 500)
  /\ spawned (events_of (download_video relay_scenario
               (json_request (JObj [("url", JStr "https://youtu.be/abc123");
                                    ("format_id", JNum 18)])) ∅)) = []
  /\ posted (events_of (download_video relay_scenario
               (json_request (JObj [("url", JStr "https://youtu.be/abc123");
                                    ("format_id", JNum 18)])) ∅)) = []
  /\ fs_of (download_video relay_scenario
               (json_request (JObj [("url", JStr "https://youtu.be/abc123");
                                    ("format_id", JNum 18)])) ∅)
     = rmtree scenario_tmp (<[scenario_tmp := Dir []]> ∅).
Proof.
  apply (format_that_is_not_a_string_is_500 relay_scenario
           (json_request (JObj [("url", JStr "https://youtu.be/abc123");
                                ("format_id", JNum 18)])) ∅
           (JObj [("url", JStr "https://youtu.be/abc123"); ("format_id", JNum 18)])
           "https://youtu.be/abc123" (JNum 18) scenario_tmp);
    first [reflexivity | split; reflexivity | exact I].
Defined.

Section Ran.

Variables (E : Env) (request : Request) (fs fs1 : FS) (data : JSON).
Variables (url format_id temp_dir : string) (outcome : ProcOutcome).

(** The call got as far as running the downloader, which ended as
    [outcome] and left the file system as [fs1]. *)
Hypothesis Hconfigured : is_configured E.
Hypothesis Hjson : get_json request = Ok data.
Hypothesis Hurl : py_getitem data "url" = Ok (JStr url).
Hypothesis Hformat : py_get data "format_id" (JStr default_format) = Ok (JStr format_id).
Hypothesis Hmkdtemp : mkdtemp E fs = Some temp_dir.
Hypothesis Hran :
  run_process E (download_command format_id (final_url_of (strip url)) temp_dir) 1800
              (<[temp_dir := Dir []]> fs)
  = (outcome, fs1).




End Ran.



Section Relayed.

Variables (E : Env) (request : Request) (fs fs1 : FS) (data : JSON).
Variables (url format_id temp_dir out err file_name : string) (others : list string).

(** The downloader exited with status 0 and the listing of the workspace
    starts with [file_name]. *)
Hypothesis Hconfigured : is_configured E.
Hypothesis Hjson : get_json request = Ok data.
Hypothesis Hurl : py_getitem data "url" = Ok (JStr url).
Hypothesis Hformat : py_get data "format_id" (JStr default_format) = Ok (JStr format_id).
Hypothesis Hmkdtemp : mkdtemp E fs = Some temp_dir.
Hypothesis Htool :
  run_process E (download_command format_id (final_url_of (strip url)) temp_dir) 1800
              (<[temp_dir := Dir []]> fs)
  = (Exited 0 out err, fs1).
Hypothesis Hlisting : fs1 !! temp_dir = Some (Dir (file_name :: others)).

(** Runs the handler up to the upload. *)
Ltac run_to_upload :=
  rewrite (download_video_in_workspace _ _ _ _ _ _ _
             Hconfigured Hjson Hurl Hformat Hmkdtemp);
  unfold run_in_workspace, in_workspace; run_monad;
  rewrite (locate_artifact_lists _ _ _ _ _ _ _ _ Htool), Hlisting; run_handler.

(** The file that is uploaded is the first one of the listing, whatever
    else the workspace holds: when it can be opened there is exactly one
    upload, of that file, and an endpoint that cannot be reached gives the
    500 error envelope of the failed upload. *)
Theorem upload_takes_the_first_file :
  fs1 !! os_path_join temp_dir file_name = Some RegularFile ->
  posted (events_of (download_video E request fs))
    = [EPost (configured (CONOHA_UPLOAD_URL E)) file_name
             (configured (CONOHA_API_KEY E)) 600]
  /\ (upload_endpoint E (configured (CONOHA_UPLOAD_URL E)) file_name
                      (configured (CONOHA_API_KEY E)) = Unreachable ->
      result_of (download_video E request fs)
      = Ok (jsonify (error_envelope
              ("ConoHaサーバーへのアップロードに失敗しました: "
               +:+ exn_str E RequestException)) 500)).
Proof.
  intros Hfile. split.
  - run_to_upload. rewrite Hfile. all_runs; reflexivity.
  - intros Hunreachable. run_to_upload. rewrite Hfile, Hunreachable. reflexivity.
Qed.

(** When the first entry of the listing is not a file that can be opened (a
    directory, or gone), nothing is uploaded and the answer is the 500 error
    envelope of the failed upload. *)
Theorem artifact_that_cannot_be_opened_is_500 :
  fs1 !! os_path_join temp_dir file_name <> Some RegularFile ->
  posted (events_of (download_video E request fs)) = []
  /\ exists what,
       result_of (download_video E request fs)
       = Ok (jsonify (error_envelope
               ("ConoHaサーバーへのアップロードに失敗しました: "
                +:+ exn_str E (OSError what))) 500).
Proof.
  intros Hfile. run_to_upload.
  destruct (fs1 !! os_path_join temp_dir file_name) as [[entries|]|];
    [| contradiction |]; (split; [reflexivity | eexists; reflexivity]).
Qed.

End Relayed.

Lemma upload_takes_the_first_file_witness :
  posted (events_of (download_video unreachable_scenario youtu_request ∅))
    = [EPost (configured (CONOHA_UPLOAD_URL unreachable_scenario)) "Title-[18].mp4"
             (configured (CONOHA_API_KEY unreachable_scenario)) 600]
  /\ (upload_endpoint unreachable_scenario
        (configured (CONOHA_UPLOAD_URL unreachable_scenario)) "Title-[18].mp4"
        (configured (CONOHA_API_KEY unreachable_scenario)) = Unreachable ->
      result_of (download_video unreachable_scenario youtu_request ∅)
      = Ok (jsonify (error_envelope
              ("ConoHaサーバーへのアップロードに失敗しました: "
               +:+ exn_str unreachable_scenario RequestException)) 500)).
Proof.
  apply (upload_takes_the_first_file unreachable_scenario youtu_request ∅
           (write_files scenario_tmp ["Title-[18].mp4"] (<[scenario_tmp := Dir []]> ∅))
           (JObj [("url", JStr "https://youtu.be/abc123")])
           "https://youtu.be/abc123" default_format scenario_tmp
           EmptyString EmptyString "Title-[18].mp4" []);
    first [reflexivity | split; reflexivity | vm_compute; reflexivity].
Defined.

Lemma artifact_that_cannot_be_opened_is_500_witness :
  posted (events_of (download_video fragments_scenario youtu_request ∅)) = []
  /\ exists what,
       result_of (download_video fragments_scenario youtu_request ∅)
       = Ok (jsonify (error_envelope
               ("ConoHaサーバーへのアップロードに失敗しました: "
                +:+ exn_str fragments_scenario (OSError what))) 500).
Proof.
  apply (artifact_that_cannot_be_opened_is_500 fragments_scenario youtu_request ∅
           (<[os_path_join scenario_tmp "fragments" := Dir []]>
              (<[scenario_tmp := Dir ["fragments"]]> (<[scenario_tmp := Dir []]> ∅)))
           (JObj [("url", JStr "https://youtu.be/abc123")])
           "https://youtu.be/abc123" default_format scenario_tmp
           EmptyString EmptyString "fragments" []);
    first [reflexivity | split; reflexivity | vm_compute; reflexivity
          | vm_compute; discriminate].
Defined.

(** ** A body that is not as expected *)

Lemma url_missing_no_object (data : JSON) :
  (forall members, data <> JObj members) ->
  url_missing data = Ok true
  \/ url_missing data = Raise TypeError
  \/ (url_missing data = Ok false /\ py_getitem data "url" = Raise TypeError).
Proof.
  intros Hshape. unfold url_missing, py_in, py_getitem.
  destruct data as [| |n|text|items|members];
    [| | | | | destruct (Hshape members eq_refl)]; cbn [truthy].
  - left. reflexivity.
  - destruct b; [right; left | left]; reflexivity.
  - destruct (n =? 0)%Z; [left | right; left]; reflexivity.
  - destruct (String.eqb text EmptyString); [left; reflexivity |].
    cbn [negb mbind Res_bind]. destruct (contains "url" text);
      [right; right; split | left]; reflexivity.
  - destruct items as [|item items]; [left; reflexivity |].
    cbn [negb mbind Res_bind]. destruct (existsb (is_str "url") (item :: items));
      [right; right; split | left]; reflexivity.
Qed.

(** A body that is not a JSON object never gets a child process started,
    by [/formats] or by a configured [/download]: the answer is the 400
    error envelope, or a [TypeError] leaves the handler (the body is a
    number or [true], or a string or a list in which [url] occurs). *)
Theorem body_that_is_no_object_starts_nothing (E : Env) (request : Request) (fs : FS)
    (data : JSON) :
  get_json request = Ok data ->
  (forall members, data <> JObj members) ->
  ((result_of (get_formats E request fs)
      = Ok (jsonify (error_envelope "ビデオのURLがリクエストに含まれていません。") 400)
    \/ result_of (get_formats E request fs) = Raise TypeError)
   /\ forallb is_log (events_of (get_formats E request fs)) = true)
  /\ (is_configured E ->
      (result_of (download_video E request fs)
         = Ok (jsonify (error_envelope "ビデオのURLがリクエストに含まれていません。") 400)
       \/ result_of (download_video E request fs) = Raise TypeError)
      /\ forallb is_log (events_of (download_video E request fs)) = true).
Proof.
  intros Hjson Hshape.
  pose proof (url_missing_no_object data Hshape) as Hguard.
  split; [| intros [Hupload Hkey]].
  - unfold get_formats. rewrite Hjson, bind_lift_Ok.
    destruct Hguard as [-> | [-> | [-> Hitem]]];
      [rewrite bind_lift_Ok | | rewrite bind_lift_Ok; cbv iota; rewrite Hitem];
      split; first [reflexivity | left; reflexivity | right; reflexivity].
  - unfold download_video. rewrite Hupload, Hkey.
    change (negb true || negb true) with false. cbv iota.
    rewrite Hjson, bind_lift_Ok.
    destruct Hguard as [-> | [-> | [-> Hitem]]];
      [rewrite bind_lift_Ok | | rewrite bind_lift_Ok; cbv iota; rewrite Hitem];
      split; first [reflexivity | left; reflexivity | right; reflexivity].
Qed.

Lemma body_that_is_no_object_starts_nothing_witness :
  ((result_of (get_formats relay_scenario (json_request (JArr [JStr "url"])) ∅)
      = Ok (jsonify (error_envelope "ビデオのURLがリクエストに含まれていません。") 400)
    \/ result_of (get_formats relay_scenario (json_request (JArr [JStr "url"])) ∅)
       = Raise TypeError)
   /\ forallb is_log
        (events_of (get_formats relay_scenario (json_request (JArr [JStr "url"])) ∅))
      = true)
  /\ ((result_of (download_video relay_scenario (json_request (JArr [JStr "url"])) ∅)
         = Ok (jsonify (error_envelope "ビデオのURLがリクエストに含まれていません。") 400)
       \/ result_of (download_video relay_scenario (json_request (JArr [JStr "url"])) ∅)
          = Raise TypeError)
      /\ forallb is_log
           (events_of (download_video relay_scenario (json_request (JArr [JStr "url"])) ∅))
         = true).
Proof.
  destruct (body_that_is_no_object_starts_nothing relay_scenario
              (json_request (JArr [JStr "url"])) ∅ (JArr [JStr "url"]) eq_refl)
    as [Hformats Hdownload].
  - intros members. discriminate.
  - split; [exact Hformats | apply Hdownload; split; reflexivity].
Defined.

(** A [url] that is not a string is not answered with an error envelope: an
    [AttributeError] leaves [/formats], and a configured [/download], before
    anything is logged or started. *)
Theorem url_that_is_not_a_string_raises (E : Env) (request : Request) (fs : FS)
    (members : list (string * JSON)) (url : JSON) :
  get_json request = Ok (JObj members) ->
  assoc "url" members = Some url ->
  not_a_str url ->
  get_formats E request fs = (Raise AttributeError, fs, [])
  /\ (is_configured E -> download_video E request fs = (Raise AttributeError, fs, [])).
Proof.
  intros Hjson Hurl Hnot.
  assert (Hitem : py_getitem (JObj members) "url" = Ok url)
    by (unfold py_getitem; rewrite Hurl; reflexivity).
  assert (Hstrip : py_strip url = Raise AttributeError)
    by (destruct url; try reflexivity; contradiction).
  split; [| intros [Hupload Hkey]].
  - unfold get_formats.
    rewrite Hjson, bind_lift_Ok, (url_missing_has_url _ _ Hitem), bind_lift_Ok.
    cbv iota. rewrite Hitem, bind_lift_Ok, Hstrip. reflexivity.
  - unfold download_video. rewrite Hupload, Hkey.
    change (negb true || negb true) with false. cbv iota.
    rewrite Hjson, bind_lift_Ok, (url_missing_has_url _ _ Hitem), bind_lift_Ok.
    cbv iota. rewrite Hitem, bind_lift_Ok, Hstrip. reflexivity.
Qed.

Lemma url_that_is_not_a_string_raises_witness :
  get_formats relay_scenario (json_request (JObj [("url", JNum 42)])) ∅
    = (Raise AttributeError, ∅, [])
  /\ download_video relay_scenario (json_request (JObj [("url", JNum 42)])) ∅
    = (Raise AttributeError, ∅, []).
Proof.
  destruct (url_that_is_not_a_string_raises relay_scenario
              (json_request (JObj [("url", JNum 42)])) ∅ [("url", JNum 42)] (JNum 42)
              eq_refl eq_refl I) as [Hformats Hdownload].
  split; [exact Hformats | apply Hdownload; split; reflexivity].
Defined.

(** ** What the quoting of the URL achieves *)

Lemma literal_word_closes (s : string) :
  every plain_in_quotes s = true ->
  literal_word DoubleQuoted false (s +:+ dquote) = true.
Proof.
  induction s as [|c s IH]; [reflexivity |].
  cbn [every]. intros Hplain. apply andb_prop in Hplain as [Hc Hs].
  change (String c s +:+ dquote) with (String c (s +:+ dquote)).
  cbn [literal_word]. unfold plain_in_quotes in Hc.
  destruct (Ascii.eqb c backslash); [discriminate Hc |].
  destruct (Ascii.eqb c double_quote); [discriminate Hc |].
  destruct (expands c); [discriminate Hc |].
  cbn [negb andb]. exact (IH Hs).
Qed.

(** A URL of YouTube that holds no double quote, backslash, [$] or
    backquote is put on the command line between double quotes and is read
    by the shell as one word, character for character: the [&], [?] and
    [;] of such a URL are harmless. *)
Theorem quoted_youtube_url_is_one_word (video_url : string) :
  contains "youtube.com" video_url || contains "youtu.be" video_url = true ->
  every plain_in_quotes video_url = true ->
  final_url_of video_url = quoted video_url
  /\ shell_safe (final_url_of video_url) = true.
Proof.
  intros Hyoutube Hplain. unfold final_url_of. rewrite Hyoutube.
  split; [reflexivity |].
  unfold shell_safe.
  change (dquote +:+ video_url +:+ dquote)
    with (String double_quote (video_url +:+ dquote)).
  cbn [literal_word].
  change (Ascii.eqb double_quote backslash) with false.
  change (Ascii.eqb double_quote double_quote) with true. cbv iota.
  apply literal_word_closes. exact Hplain.
Qed.

Lemma quoted_youtube_url_is_one_word_witness :
  final_url_of "https://www.youtube.com/watch?v=abc123&list=PL1;x"
    = quoted "https://www.youtube.com/watch?v=abc123&list=PL1;x"
  /\ shell_safe (final_url_of "https://www.youtube.com/watch?v=abc123&list=PL1;x")
     = true.
Proof.
  apply quoted_youtube_url_is_one_word; reflexivity.
Defined.

(** ** The size shown in a note *)

Lemma hundredths_small (n : Z) : 0 <= n <= 5242 -> hundredths n = 0.
Proof.
  intros Hn. unfold hundredths, MiB. change (1024 * 1024) with 1048576.
  rewrite Z.div_small by lia. rewrite Z.mod_small by lia.
  destruct (Z.ltb_spec 1048576 (2 * (100 * n))); [lia |].
  destruct (Z.eqb_spec 1048576 (2 * (100 * n))); [lia |]. reflexivity.
Qed.

Lemma hundredths_whole (k : Z) : hundredths (k * MiB) = 100 * k.
Proof.
  unfold hundredths, MiB. change (1024 * 1024) with 1048576.
  replace (100 * (k * 1048576)) with (100 * k * 1048576) by lia.
  rewrite Z.div_mul by lia. rewrite Z.mod_mul by lia. reflexivity.
Qed.

(** A size that is a whole number of mebibytes (below [2^53] bytes) is
    shown as that number with one decimal, [.0]; a size of 1 to 5242 bytes
    still gets a suffix, which shows it as [0.0]. *)
Theorem size_suffix_of_whole_and_tiny_sizes (k n : Z) :
  (1 <= k < 2 ^ 33 -> size_suffix (k * MiB) = " - 約" +:+ str_int k +:+ ".0MB")
  /\ (1 <= n <= 5242 ->
      size_suffix n = " - 約0.0MB"
      /\ forall (E : Env) (members : list (string * JSON)) (format_id : JSON),
           assoc "format_id" members = Some format_id ->
           assoc "filesize" members = Some (JNum n) ->
           size_field_ok (assoc "filesize_approx" members) ->
           note_of (selectable_format E (JObj members))
           = Some (base_note E members +:+ " - 約0.0MB")).
Proof.
  split.
  - intros Hk. unfold size_suffix, mb_text.
    assert (Hpos : 0 <= k * MiB) by (unfold MiB; lia).
    rewrite Z.abs_eq by exact Hpos. rewrite hundredths_whole.
    destruct (Z.ltb_spec (k * MiB) 0) as [Hneg | _]; [lia |].
    assert (Hdecimals : decimals (100 * k) = "0").
    { unfold decimals. replace (100 * k) with (k * 100) by lia.
      rewrite Z.mod_mul by lia. reflexivity. }
    rewrite Hdecimals. replace (100 * k / 100) with k
      by (replace (100 * k) with (k * 100) by lia; rewrite Z.div_mul by lia;
          reflexivity).
    change (" - 約" +:+ (str_int k +:+ ".0") +:+ "MB"
            = " - 約" +:+ str_int k +:+ ".0MB").
    rewrite append_assoc. reflexivity.
  - intros Hn.
    assert (Hsuffix : size_suffix n = " - 約0.0MB").
    { unfold size_suffix, mb_text. rewrite Z.abs_eq by lia.
      rewrite hundredths_small by lia.
      destruct (Z.ltb_spec n 0) as [Hneg | _]; [lia |]. reflexivity. }
    split; [exact Hsuffix |].
    intros E members format_id Hid Hsize Happrox.
    rewrite (selectable_format_sized E members format_id Hid); [| | exact Happrox].
    + unfold note_of, spec_note, byte_size. cbn [assoc String.eqb Ascii.eqb Bool.eqb].
      rewrite Hsize. cbn [nonzero_size].
      destruct (Z.eqb_spec n 0) as [Hzero | _]; [lia |].
      rewrite Hsuffix. reflexivity.
    + rewrite Hsize. exact I.
Qed.

Lemma size_suffix_of_whole_and_tiny_sizes_witness :
  size_suffix (12 * MiB) = " - 約" +:+ str_int 12 +:+ ".0MB"
  /\ size_suffix 5242 = " - 約0.0MB"
  /\ note_of (selectable_format relay_scenario
                (JObj (("filesize", JNum 5242) :: unsized_entry)))
     = Some (base_note relay_scenario (("filesize", JNum 5242) :: unsized_entry)
             +:+ " - 約0.0MB").
Proof.
  destruct (size_suffix_of_whole_and_tiny_sizes 12 5242) as [Hwhole Htiny].
  split; [apply Hwhole; lia |].
  destruct (Htiny ltac:(lia)) as [Hsuffix Hnote].
  split; [exact Hsuffix |].
  apply (Hnote relay_scenario (("filesize", JNum 5242) :: unsized_entry) (JStr "137"));
    [reflexivity | reflexivity | exact I].
Defined.
